(** * DSE allotment searcher: a shallow embedding of [dse_allotment_search.py]

    The development follows the class [DSEAllotmentSearcher]:
    - [PyStr]    : the [str] methods the script relies on ([lower], [strip],
                   [isdigit], [in], [split], [endswith], slicing, [str(int)]);
    - [Catalog]  : [scrape_college_data] and [generate_fallback_codes];
    - [Os], [Net]: the file system and the HTTP answers the script works on;
    - [Download] : [download_pdf] and [download_all_pdfs];
    - [Search]   : [search_pdf] and [search_all_pdfs];
    - [Driver]   : [__init__] and [run];
    - [Spec]     : wordings of the specification that are compared with the
                   code; [Examples]: concrete inputs.

    Python strings are modelled by [string], whose characters are read as the
    code points U+0000..U+00FF.  On that range [str.lower], [str.isspace] and
    [str.isdigit] act character by character and are transcribed below from
    the Unicode tables.  Console output ([print]) is not modelled. *)

From Stdlib Require Import Ascii NArith Lia DecimalString DecimalN DecimalPos.
From stdpp Require Import gmap strings list fin_maps.

(* ===================================================================== *)
(** ** Python [str] operations *)
(* ===================================================================== *)

Module PyStr.

(** [ord(c)] *)
Definition ord (c : ascii) : N := N_of_ascii c.

(** [str.lower] on one code point below U+0100: the ASCII capitals and the
    Latin-1 capitals U+00C0..U+00DE (U+00D7 is the multiplication sign). *)
Definition lower_char (c : ascii) : ascii :=
  let n := ord c in
  if ((65 <=? n) && (n <=? 90))%N
     || ((192 <=? n) && (n <=? 222) && negb (n =? 215))%N
  then ascii_of_N (n + 32)
  else c.

Fixpoint lower (s : string) : string :=
  match s with
  | EmptyString => EmptyString
  | String c s' => String (lower_char c) (lower s')
  end.

(** [str.isspace] on one code point below U+0100. *)
Definition isspace (c : ascii) : bool :=
  let n := ord c in
  ((9 <=? n) && (n <=? 13))%N || ((28 <=? n) && (n <=? 32))%N
  || (n =? 133)%N || (n =? 160)%N.

(** [str.isdigit] on one code point below U+0100: the decimal digits and
    the superscripts U+00B2, U+00B3, U+00B9. *)
Definition isdigit_char (c : ascii) : bool :=
  let n := ord c in
  ((48 <=? n) && (n <=? 57))%N || (n =? 178)%N || (n =? 179)%N || (n =? 185)%N.

Fixpoint all_chars (p : ascii → bool) (s : string) : bool :=
  match s with
  | EmptyString => true
  | String c s' => p c && all_chars p s'
  end.

Definition is_empty (s : string) : bool :=
  match s with EmptyString => true | _ => false end.

(** [s.isdigit()]: at least one character and all of them digits. *)
Definition isdigit (s : string) : bool :=
  negb (is_empty s) && all_chars isdigit_char s.

Fixpoint lstrip (s : string) : string :=
  match s with
  | EmptyString => EmptyString
  | String c s' => if isspace c then lstrip s' else s
  end.

Fixpoint rstrip (s : string) : string :=
  match s with
  | EmptyString => EmptyString
  | String c s' =>
      let r := rstrip s' in
      if isspace c && is_empty r then EmptyString else String c r
  end.

(** [s.strip()] *)
Definition strip (s : string) : string := rstrip (lstrip s).

(** [s.startswith(p)] *)
Fixpoint startswith (p s : string) : bool :=
  match p, s with
  | EmptyString, _ => true
  | String a p', String b s' => bool_decide (a = b) && startswith p' s'
  | String _ _, EmptyString => false
  end.

(** [needle in hay] *)
Fixpoint contains (needle hay : string) : bool :=
  startswith needle hay
  || match hay with
     | EmptyString => false
     | String _ hay' => contains needle hay'
     end.

(** [s.endswith(suf)] *)
Fixpoint endswith (suf s : string) : bool :=
  bool_decide (s = suf)
  || match s with
     | EmptyString => false
     | String _ s' => endswith suf s'
     end.

(** [s.split(sep)] for a one-character separator: never empty, and a
    string without the separator is returned whole. *)
Fixpoint split (sep : ascii) (s : string) : list string :=
  match s with
  | EmptyString => [EmptyString]
  | String c s' =>
      if bool_decide (c = sep) then EmptyString :: split sep s'
      else match split sep s' with
           | h :: t => String c h :: t
           | [] => [String c EmptyString]
           end
  end.

(** [sep.join(parts)] for a one-character separator. *)
Fixpoint join (sep : ascii) (parts : list string) : string :=
  match parts with
  | [] => EmptyString
  | [p] => p
  | p :: ps => p +:+ String sep (join sep ps)
  end.

(** [s[:n]] *)
Fixpoint take (n : nat) (s : string) : string :=
  match n, s with
  | S n', String c s' => String c (take n' s')
  | _, _ => EmptyString
  end.

(** [str(n)] for a non-negative [int]. *)
Definition str (n : N) : string := NilZero.string_of_uint (N.to_uint n).

Definition newline : ascii := "010"%char.
Definition underscore : ascii := "_"%char.

(** Propositional reading of [needle in hay]. *)
Definition Substring (needle hay : string) : Prop :=
  ∃ pre post, hay = pre +:+ needle +:+ post.

Definition has_char (c : ascii) (s : string) : bool :=
  negb (all_chars (λ x, negb (bool_decide (x = c))) s).

End PyStr.

(* ===================================================================== *)
(** ** The catalog: [scrape_college_data], [generate_fallback_codes] *)
(* ===================================================================== *)

(** A value of [self.colleges_data]: the dict with keys ['sr_no'], ['name']
    and ['code']. *)
Record college := { sr_no : string; name : string; code : string }.

Global Instance college_eq_dec : EqDecision college.
Proof. solve_decision. Defined.

Module Catalog.

(** A [td] element, as the text nodes below it in document order. *)
Definition cell := list string.
(** A [tr] element, as the [td] elements [row.find_all('td')] returns. *)
Definition row := list cell.

(** [cell.get_text(strip=True)]: every text node stripped, then joined
    with the empty separator. *)
Definition get_text (c : cell) : string :=
  foldr (λ t acc, PyStr.strip t +:+ acc) "" c.

(** What the [try] block of [scrape_college_data] gets from the network
    and the parser: an exception, or the [tr] elements of the page. *)
Inductive fetched :=
| FetchRaised (e : string)
| FetchedRows (rows : list row).

(** [range(lo, hi)] *)
Definition range (lo hi : N) : list N :=
  (λ i, (lo + N.of_nat i)%N) <$> seq 0 (N.to_nat (hi - lo)).

Definition code_ranges : list (list N) :=
  [ range 1002 1300;
    range 2008 2800;
    range 3012 3600;
    range 4004 4800;
    range 5003 5600;
    range 6004 7000;
    range 14005 14006;
    range 16006 16200 ]%N.

Definition fallback_entry (n : N) : college :=
  {| sr_no := ""; name := "Institute " +:+ PyStr.str n; code := PyStr.str n |}.

Definition generate_fallback_codes (colleges_data : gmap string college)
  : gmap string college :=
  fold_left
    (λ data code_range,
       fold_left (λ d n, <[PyStr.str n := fallback_entry n]> d) code_range data)
    code_ranges colleges_data.

(** One iteration of the loop over [rows[1:]]. *)
Definition scrape_row (colleges_data : gmap string college) (cells : row)
  : gmap string college :=
  if bool_decide (3 ≤ length cells) then
    match cells !! 0, cells !! 1, cells !! 2 with
    | Some c0, Some c1, Some c2 =>
        let sr := get_text c0 in
        let institute_code := get_text c1 in
        let institute_name := get_text c2 in
        if negb (PyStr.isdigit institute_code) then colleges_data
        else <[institute_code :=
                 {| sr_no := sr; name := institute_name; code := institute_code |}]>
               colleges_data
    | _, _, _ => colleges_data
    end
  else colleges_data.

(** [scrape_college_data]: the catalog afterwards and the returned flag. *)
Definition scrape_college_data (colleges_data : gmap string college)
    (page : fetched) : gmap string college * bool :=
  match page with
  | FetchedRows rows => (fold_left scrape_row (tail rows) colleges_data, true)
  | FetchRaised _ => (generate_fallback_codes colleges_data, false)
  end.

End Catalog.

(* ===================================================================== *)
(** ** The file system and the network, as the script sees them *)
(* ===================================================================== *)

Module Os.

Inductive node :=
| Dir (entries : list string)
| File (data : string).

(** Paths are the strings the script builds; no normalisation. *)
Abbreviation file_system := (gmap string node).

(** [os.path.exists] *)
Definition exists_ (fs : file_system) (p : string) : bool :=
  match fs !! p with Some _ => true | None => false end.

(** [os.listdir]; [None] stands for the [OSError] it raises. *)
Definition listdir (fs : file_system) (p : string) : option (list string) :=
  match fs !! p with Some (Dir es) => Some es | _ => None end.

(** [open(p, 'rb').read()], or the text of the [OSError]. *)
Definition read (fs : file_system) (p : string) : string + string :=
  match fs !! p with
  | Some (File data) => inr data
  | Some (Dir _) => inl ("[Errno 21] Is a directory: '" +:+ p +:+ "'")
  | None => inl ("[Errno 2] No such file or directory: '" +:+ p +:+ "'")
  end.

(** [p] cut at its last ['/']: directory part and file name. *)
Fixpoint split_path (p : string) : option (string * string) :=
  match p with
  | EmptyString => None
  | String c p' =>
      match split_path p' with
      | Some (d, b) => Some (String c d, b)
      | None => if bool_decide (c = "/"%char) then Some ("", p') else None
      end
  end.

Definition add_entry (b : string) (es : list string) : list string :=
  if bool_decide (b ∈ es) then es else es ++ [b].

(** [open(p, 'wb').write(data)]; [None] stands for the [OSError] raised
    when [p] is a directory or its directory part is not one.  A path
    without ['/'] lies in the working directory, which is not listed. *)
Definition write (fs : file_system) (p data : string) : option file_system :=
  match fs !! p with
  | Some (Dir _) => None
  | _ =>
      match split_path p with
      | None => Some (<[p := File data]> fs)
      | Some (d, b) =>
          match fs !! d with
          | Some (Dir es) => Some (<[p := File data]> (<[d := Dir (add_entry b es)]> fs))
          | _ => None
          end
      end
  end.

(** The directories on the way to [p]: its prefixes that end before a
    ['/'], outermost first. *)
Fixpoint ancestors (pre p : string) : list string :=
  match p with
  | EmptyString => []
  | String c p' =>
      (if bool_decide (c = "/"%char) then [pre] else [])
      ++ ancestors (pre +:+ String c "") p'
  end.

(** The text of the [OSError] of a failed [open(p, 'wb')]: the first
    directory on the way that is missing ([FileNotFoundError]) or a plain
    file ([NotADirectoryError]) decides; [p] itself may be a directory. *)
Fixpoint path_error (fs : file_system) (p : string) (ds : list string) : string :=
  match ds with
  | [] =>
      match fs !! p with
      | Some (Dir _) => "[Errno 21] Is a directory: '" +:+ p +:+ "'"
      | _ => "[Errno 2] No such file or directory: '" +:+ p +:+ "'"
      end
  | d :: ds' =>
      match fs !! d with
      | None => "[Errno 2] No such file or directory: '" +:+ p +:+ "'"
      | Some (File _) => "[Errno 20] Not a directory: '" +:+ p +:+ "'"
      | Some (Dir _) => path_error fs p ds'
      end
  end.

Definition write_error (fs : file_system) (p : string) : string :=
  path_error fs p (ancestors "" p).

(** [os.makedirs(p, exist_ok=True)] for a path whose directory part
    exists already (or that has none). *)
Definition makedirs (fs : file_system) (p : string) : option file_system :=
  match fs !! p with
  | Some (Dir _) => Some fs
  | Some (File _) => None
  | None =>
      match split_path p with
      | None => Some (<[p := Dir []]> fs)
      | Some (d, b) =>
          match fs !! d with
          | Some (Dir es) => Some (<[p := Dir []]> (<[d := Dir (add_entry b es)]> fs))
          | _ => None
          end
      end
  end.

(** [os.path.join(a, b)] *)
Definition path_join (a b : string) : string :=
  if PyStr.startswith "/" b then b
  else if PyStr.is_empty a || PyStr.endswith "/" a then a +:+ b
  else a +:+ "/" +:+ b.

End Os.

Module Net.

(** The result of [session.get(url, timeout=30)] followed by
    [raise_for_status()]: a [requests.exceptions.RequestException] with its
    text, or a response with its [content-type] header and its body. *)
Inductive outcome :=
| RequestException (e : string)
| Response (content_type : option string) (content : string).

End Net.

(* ===================================================================== *)
(** ** Downloads: [download_pdf], [download_all_pdfs] *)
(* ===================================================================== *)

Definition base_url : string := "https://dse2025.mahacet.org.in/dse25/".
Definition pdf_dir : string := "dse_pdfs".

(** What the script can change or cause outside itself: the files, and the
    requests it has sent (latest first). *)
Record world := { fs : Os.file_system; requests : list string }.

Module Download.

(** What [future.result()] gives: the tuple [download_pdf] returns, or the
    exception that escaped it. *)
Inductive future_result :=
| Returned (path : string) (success : bool) (message : string)
| Raised (e : string).

Definition pdf_url (institute_code cap_round : string) : string :=
  base_url +:+ "admin/allotment/" +:+ cap_round +:+ "/" +:+ institute_code +:+ "_4.pdf".

Definition local_path (institute_code cap_round : string) : string :=
  pdf_dir +:+ "/" +:+ cap_round +:+ "/" +:+ institute_code +:+ "_4.pdf".

Section WithNetwork.
(** The server's answer to a [GET] of each URL. *)
Variable http_get : string → Net.outcome.

Definition download_pdf (w : world) (institute_code cap_round : string)
  : world * future_result :=
  let url := pdf_url institute_code cap_round in
  let path := local_path institute_code cap_round in
  if Os.exists_ (fs w) path then (w, Returned path true "Already exists")
  else
    let w1 := {| fs := fs w; requests := url :: requests w |} in
    match http_get url with
    | Net.RequestException e =>
        (w1, Returned path false ("Error: " +:+ PyStr.take 50 e))
    | Net.Response content_type content =>
        if PyStr.contains "application/pdf" (default "" content_type) then
          match Os.write (fs w1) path content with
          | Some fs' =>
              ({| fs := fs'; requests := requests w1 |},
               Returned path true "Downloaded")
          | None => (w1, Raised (Os.write_error (fs w1) path))
          end
        else (w1, Returned path false "Not a PDF")
    end.

(** The three counters of [download_all_pdfs]. *)
Record tallies := { successful_downloads : nat; already_exists : nat; failed_downloads : nat }.

Definition no_tallies : tallies :=
  {| successful_downloads := 0; already_exists := 0; failed_downloads := 0 |}.

(** The body of the loop over [as_completed(future_to_task)]. *)
Definition tally_step (t : tallies) (r : future_result) : tallies :=
  match r with
  | Returned _ success message =>
      if success && PyStr.contains "Already exists" message then
        {| successful_downloads := successful_downloads t;
           already_exists := S (already_exists t);
           failed_downloads := failed_downloads t |}
      else if success then
        {| successful_downloads := S (successful_downloads t);
           already_exists := already_exists t;
           failed_downloads := failed_downloads t |}
      else
        {| successful_downloads := successful_downloads t;
           already_exists := already_exists t;
           failed_downloads := S (failed_downloads t) |}
  | Raised _ =>
      {| successful_downloads := successful_downloads t;
         already_exists := already_exists t;
         failed_downloads := S (failed_downloads t) |}
  end.

(** The number of tasks counted so far. *)
Definition tally_total (t : tallies) : nat :=
  successful_downloads t + already_exists t + failed_downloads t.

Definition tally (results : list future_result) : tallies :=
  fold_left tally_step results no_tallies.

(** [download_tasks]: two tasks per key of the catalog. *)
Definition download_tasks (colleges_data : gmap string college)
  : list (string * string) :=
  (map_to_list colleges_data).*1 ≫= λ institute_code,
    [(institute_code, "cap1"); (institute_code, "cap2")].

(** The tasks run one after the other in the order [order], each to its
    end: the tasks of one call write to pairwise different paths. *)
Fixpoint run_tasks (w : world) (order : list (string * string))
  : world * list future_result :=
  match order with
  | [] => (w, [])
  | (institute_code, cap_round) :: rest =>
      let '(w1, r) := download_pdf w institute_code cap_round in
      let '(w2, rs) := run_tasks w1 rest in
      (w2, r :: rs)
  end.

(** [download_all_pdfs], with the order in which the pool completes the
    tasks chosen by [schedule]. *)
Definition download_all_pdfs (schedule : list (string * string) → list (string * string))
    (colleges_data : gmap string college) (w : world) : world * tallies :=
  let '(w', results) := run_tasks w (schedule (download_tasks colleges_data)) in
  (w', tally results).

End WithNetwork.

End Download.

(* ===================================================================== *)
(** ** Search: [search_pdf], [search_all_pdfs] *)
(* ===================================================================== *)

(** One element of [results[cap_round]]. *)
Record result_entry := {
  institute_code : string;
  college_name : string;
  pdf_file : string;
  context : list string
}.

Module Search.

Section WithReader.
(** [PyPDF2.PdfReader] with [extract_text] on every page: the text of
    the exception raised, or the texts of the pages in order. *)
Variable pdf_reader : string → string + list string.

(** The loop building [full_text]. *)
Definition full_text (pages : list string) : string :=
  fold_left (λ acc page, acc +:+ (page +:+ String PyStr.newline "")) pages "".

Definition line_matches (search_name line : string) : bool :=
  PyStr.contains (PyStr.lower search_name) (PyStr.lower line)
  && negb (PyStr.is_empty (PyStr.strip line)).

(** The [try] body of [search_pdf] once the pages are extracted. *)
Definition search_text (text search_name : string) : bool * list string :=
  if PyStr.contains (PyStr.lower search_name) (PyStr.lower text) then
    let lines := PyStr.split PyStr.newline text in
    let matching_lines :=
      PyStr.strip <$> List.filter (line_matches search_name) lines in
    (true, firstn 3 matching_lines)
  else (false, []).

Definition search_pdf (files : Os.file_system) (pdf_path search_name : string)
  : bool * list string :=
  match Os.read files pdf_path with
  | inl e => (false, ["Error reading PDF: " +:+ e])
  | inr data =>
      match pdf_reader data with
      | inl e => (false, ["Error reading PDF: " +:+ e])
      | inr pages => search_text (full_text pages) search_name
      end
  end.

(** [self.colleges_data.get(code, {}).get('name', f'Institute {code}')] *)
Definition resolve_name (colleges_data : gmap string college) (c : string) : string :=
  match colleges_data !! c with
  | Some r => name r
  | None => "Institute " +:+ c
  end.

(** The dict appended to [results[cap_round]] for a matching file. *)
Definition entry_of (colleges_data : gmap string college) (file : string)
    (ctx : list string) : result_entry :=
  let c := hd "" (PyStr.split PyStr.underscore file) in
  {| institute_code := c;
     college_name := resolve_name colleges_data c;
     pdf_file := file;
     context := ctx |}.

(** The body of the loop over [pdf_files]: the entries of the round so
    far, and the entries after this file. *)
Definition search_file (colleges_data : gmap string college) (files : Os.file_system)
    (search_name cap_dir : string) (found_so_far : list result_entry) (file : string)
  : list result_entry :=
  let pdf_path := Os.path_join cap_dir file in
  let '(found, ctx) := search_pdf files pdf_path search_name in
  if found then found_so_far ++ [entry_of colleges_data file ctx]
  else found_so_far.

(** The body of the loop over the rounds; [None] is the [OSError] of
    [os.listdir]. *)
Definition search_round (colleges_data : gmap string college) (files : Os.file_system)
    (search_name : string) (results : gmap string (list result_entry))
    (cap_round : string) : option (gmap string (list result_entry)) :=
  let cap_dir := pdf_dir +:+ "/" +:+ cap_round in
  if negb (Os.exists_ files cap_dir) then Some results
  else
    match Os.listdir files cap_dir with
    | None => None
    | Some names =>
        let pdf_files := List.filter (PyStr.endswith ".pdf") names in
        Some (<[cap_round :=
                  fold_left (search_file colleges_data files search_name cap_dir)
                    pdf_files (default [] (results !! cap_round))]> results)
    end.

Definition search_all_pdfs (colleges_data : gmap string college)
    (files : Os.file_system) (search_name : string)
  : option (gmap string (list result_entry)) :=
  let results : gmap string (list result_entry) := <["cap1" := []]> (<["cap2" := []]> ∅) in
  foldl (λ acc cap_round,
           acc ≫= λ results, search_round colleges_data files search_name results cap_round)
        (Some results) ["cap1"; "cap2"].

End WithReader.

End Search.

(* ===================================================================== *)
(** ** The interactive driver: [__init__], [run] *)
(* ===================================================================== *)

Definition index_url : string :=
  "https://dse2025.mahacet.org.in/dse25/index.php/hp_controller/instwiseallotment".

Module Driver.

(** The fields of a [DSEAllotmentSearcher] that change, with the world
    it acts on. *)
Record searcher := { colleges_data : gmap string college; outside : world }.

(** Everything [run] does not decide itself. *)
Record environment := {
  index_page : Catalog.fetched;
  http_get : string → Net.outcome;
  pdf_reader : string → string + list string;
  schedule : list (string * string) → list (string * string)
}.

(** The phases [run] went through, in order. *)
Inductive call :=
| DownloadAll (summary : Download.tallies)
| SearchAll (search_name : string) (results : gmap string (list result_entry)).

(** How [run] ended: it returned, [input] met the end of the input, or
    [os.listdir] raised. *)
Inductive exit := Finished | EOFError | OSError.

Record run_result := { final : searcher; calls : list call; status : exit }.

(** [__init__] *)
Definition init (w : world) : option searcher :=
  fs1 ← Os.makedirs (fs w) pdf_dir;
  fs2 ← Os.makedirs fs1 (pdf_dir +:+ "/cap1");
  fs3 ← Os.makedirs fs2 (pdf_dir +:+ "/cap2");
  Some {| colleges_data := ∅; outside := {| fs := fs3; requests := requests w |} |}.

(** Step 3 of [run]: the loop over the search prompts.  [stdin] holds the
    lines [input] will return. *)
Fixpoint search_loop (env : environment) (s : searcher) (stdin : list string)
    (done : list call) : run_result :=
  match stdin with
  | [] => {| final := s; calls := done; status := EOFError |}
  | line :: rest =>
      let search_name := PyStr.strip line in
      if PyStr.is_empty search_name
         || bool_decide (PyStr.lower search_name = "quit")
      then {| final := s; calls := done; status := Finished |}
      else if bool_decide (String.length search_name < 3)
      then search_loop env s rest done
      else
        match Search.search_all_pdfs (pdf_reader env) (colleges_data s)
                (fs (outside s)) search_name with
        | None => {| final := s; calls := done; status := OSError |}
        | Some results =>
            let done' := done ++ [SearchAll search_name results] in
            match rest with
            | [] => {| final := s; calls := done'; status := EOFError |}
            | answer :: rest' =>
                let continue_choice := PyStr.lower (PyStr.strip answer) in
                if bool_decide (continue_choice = "n")
                then {| final := s; calls := done'; status := Finished |}
                else search_loop env s rest' done'
            end
        end
  end.

(** [run] *)
Definition run (env : environment) (s : searcher) (stdin : list string) : run_result :=
  let '(data, _) := Catalog.scrape_college_data (colleges_data s) (index_page env) in
  let w1 := {| fs := fs (outside s); requests := index_url :: requests (outside s) |} in
  let s1 := {| colleges_data := data; outside := w1 |} in
  match stdin with
  | [] => {| final := s1; calls := []; status := EOFError |}
  | line :: rest =>
      let download_choice := PyStr.lower (PyStr.strip line) in
      if bool_decide (download_choice ≠ "n") then
        let '(w2, summary) :=
          Download.download_all_pdfs (http_get env) (schedule env) data w1 in
        search_loop env {| colleges_data := data; outside := w2 |} rest
          [DownloadAll summary]
      else search_loop env s1 rest []
  end.

(** What the search loop requires of a name before it searches for it:
    trimmed, at least three characters, and not the word that quits. *)
Definition searchable (name : string) : Prop :=
  3 ≤ String.length name ∧ PyStr.strip name = name ∧ PyStr.lower name ≠ "quit".

Definition is_download (c : call) : bool :=
  match c with DownloadAll _ => true | SearchAll _ _ => false end.

(** Whether [run] called [download_all_pdfs]. *)
Definition download_phase_ran (r : run_result) : bool :=
  existsb is_download (calls r).

End Driver.

(* ===================================================================== *)
(** ** The specification's wording, where it is compared with the code *)
(* ===================================================================== *)

Module Spec.

(** Section 4.4: every line, in original order, whose case-folded form
    contains the case-folded search string, trimmed, and of these the
    first three. *)
Definition context_lines (text search_name : string) : list string :=
  firstn 3
    (PyStr.strip <$>
       List.filter
         (λ line, PyStr.contains (PyStr.lower search_name) (PyStr.lower line))
         (PyStr.split PyStr.newline text)).

(** Section 4.2: what a table row contributes to the catalog: with at
    least three cells and a purely numeric code cell, the record made of
    cells 0 to 2, stored under the code; nothing otherwise. *)
Definition row_entry (r : Catalog.row) : option (string * college) :=
  match r with
  | c0 :: c1 :: c2 :: _ =>
      if PyStr.isdigit (Catalog.get_text c1)
      then Some (Catalog.get_text c1,
                 {| sr_no := Catalog.get_text c0;
                    name := Catalog.get_text c2;
                    code := Catalog.get_text c1 |})
      else None
  | _ => None
  end.

(** Section 4.2: the eight fallback ranges, by their boundaries. *)
Definition in_fallback_ranges (n : N) : Prop :=
  (1002 ≤ n < 1300 ∨ 2008 ≤ n < 2800 ∨ 3012 ≤ n < 3600 ∨ 4004 ≤ n < 4800
   ∨ 5003 ≤ n < 5600 ∨ 6004 ≤ n < 7000 ∨ 14005 ≤ n < 14006
   ∨ 16006 ≤ n < 16200)%N.

(** Section 4.7: the download phase is skipped on the answer "no". *)
Definition skips_download (answer : string) : bool :=
  bool_decide (PyStr.lower (PyStr.strip answer) = "no").

End Spec.

(* ===================================================================== *)
(** ** Concrete inputs *)
(* ===================================================================== *)

Module Examples.

Definition nl : string := String PyStr.newline "".

(** A stand-in for [PyPDF2]: an empty file is refused, any other file
    holds its pages separated by form feeds. *)
Definition plain_reader (data : string) : string + list string :=
  if PyStr.is_empty data then inl "Cannot read an empty file"
  else inr (PyStr.split "012"%char data).

Definition one_file (path data : string) : Os.file_system :=
  <[path := Os.File data]> ∅.

(** The catalog {"1002": "Test College"}. *)
Definition test_catalog : gmap string college :=
  {[ "1002" := {| sr_no := "1"; name := "Test College"; code := "1002" |} ]}.

(** The directories [__init__] makes, with one file under [cap1]. *)
Definition test_files (data : string) : Os.file_system :=
  <["dse_pdfs/cap1/1002_4.pdf" := Os.File data]>
    (<["dse_pdfs/cap1" := Os.Dir ["1002_4.pdf"]]>
       (<["dse_pdfs/cap2" := Os.Dir []]>
          (<["dse_pdfs" := Os.Dir ["cap1"; "cap2"]]> ∅))).

Definition john_jane : string := "John Doe" +:+ nl +:+ "Jane Roe".

(** A table: a header, a row for 1002, a row with a non-numeric code, a
    short row, and a second row for 1002. *)
Definition test_table : list Catalog.row :=
  [ [["Sr"]; ["Code"]; ["Name"]];
    [[" 1 "]; ["1002"]; ["Old "; "Name"]];
    [["x"]; ["abc"]; ["Not an institute"]];
    [["2"]];
    [["3"]; [" 1002"]; ["New Name"]; ["extra"]] ].

(** A server that has a PDF for 1002, answers 1003 with an HTML page,
    1004 without a content type, and refuses everything else. *)
Definition server (url : string) : Net.outcome :=
  if PyStr.endswith "/1002_4.pdf" url then
    Net.Response (Some "application/pdf; charset=binary") john_jane
  else if PyStr.endswith "/1003_4.pdf" url then
    Net.Response (Some "text/html") "<html></html>"
  else if PyStr.endswith "/1004_4.pdf" url then
    Net.Response None john_jane
  else
    Net.RequestException
      ("404 Client Error: Not Found for url: " +:+ url).

(** The world after [__init__]: the three directories and nothing sent. *)
Definition fresh_world : world :=
  {| fs := <["dse_pdfs/cap1" := Os.Dir []]>
             (<["dse_pdfs/cap2" := Os.Dir []]>
                (<["dse_pdfs" := Os.Dir ["cap1"; "cap2"]]> ∅));
     requests := [] |}.

Definition test_env : Driver.environment :=
  {| Driver.index_page :=
       Catalog.FetchedRows [ []; [["1"]; ["1002"]; ["Test College"]] ];
     Driver.http_get := server;
     Driver.pdf_reader := plain_reader;
     Driver.schedule := λ tasks, reverse tasks |}.

Definition fresh_searcher : Driver.searcher :=
  {| Driver.colleges_data := ∅; Driver.outside := fresh_world |}.

(** Two pages, "ab" and "cd". *)
Definition two_pages : string := "ab" +:+ String "012"%char "cd".

(** A round directory with an empty (unreadable) file between two good ones. *)
Definition mixed_files : Os.file_system :=
  <["dse_pdfs/cap1/1002_4.pdf" := Os.File john_jane]>
    (<["dse_pdfs/cap1/1003_4.pdf" := Os.File ""]>
       (<["dse_pdfs/cap1/1004_4.pdf" := Os.File john_jane]>
          (<["dse_pdfs/cap1" := Os.Dir ["1002_4.pdf"; "1003_4.pdf"; "1004_4.pdf"]]>
             (<["dse_pdfs/cap2" := Os.Dir []]> ∅)))).

End Examples.

(* ===================================================================== *)
(** ** Facts about the [str] operations *)
(* ===================================================================== *)

Section PyStrFacts.
Import PyStr.

Lemma str_app_nil (t : string) : "" +:+ t = t.
Proof. reflexivity. Qed.

Lemma str_app_cons (c : ascii) (s t : string) : String c s +:+ t = String c (s +:+ t).
Proof. reflexivity. Qed.

Lemma str_app_nil_r (s : string) : s +:+ "" = s.
Proof. induction s as [|c s IH]; [done|]. by rewrite str_app_cons, IH. Qed.

Lemma app_assoc_str (a b c : string) : (a +:+ b) +:+ c = a +:+ (b +:+ c).
Proof. induction a as [|x a IH]; [done|]. by rewrite !str_app_cons, IH. Qed.

Lemma startswith_spec (p s : string) :
  startswith p s = true ↔ ∃ post, s = p +:+ post.
Proof.
  revert s. induction p as [|a p IH]; intros s; simpl.
  - split; [intros _; by exists s | done].
  - destruct s as [|b s].
    + split; [done | intros [post H]; by rewrite str_app_cons in H].
    + rewrite andb_true_iff, bool_decide_eq_true, IH. split.
      * intros [-> [post ->]]. by exists post.
      * intros [post H]. rewrite str_app_cons in H. injection H as -> ->. eauto.
Qed.

Lemma contains_spec (needle hay : string) :
  contains needle hay = true ↔ Substring needle hay.
Proof.
  unfold Substring. induction hay as [|c hay IH].
  - simpl. rewrite orb_false_r, startswith_spec. split.
    + intros [post H]. by exists "", post.
    + intros [[|x pre] [post H]]; [by exists post|]. by rewrite str_app_cons in H.
  - cbn [contains]. rewrite orb_true_iff, startswith_spec, IH. split.
    + intros [[post H] | (pre & post & H)].
      * by exists "", post.
      * exists (String c pre), post. by rewrite str_app_cons, H.
    + intros ([|x pre] & post & H).
      * left. by exists post.
      * right. rewrite str_app_cons in H. injection H as -> ->. by exists pre, post.
Qed.

Lemma Substring_app_l (n a b : string) : Substring n a → Substring n (a +:+ b).
Proof.
  intros (pre & post & ->). exists pre, (post +:+ b).
  by rewrite !app_assoc_str.
Qed.

Lemma Substring_app_r (n a b : string) : Substring n b → Substring n (a +:+ b).
Proof.
  intros (pre & post & ->). exists (a +:+ pre), post.
  by rewrite !app_assoc_str.
Qed.

Lemma Substring_cons (n : string) (c : ascii) (s : string) :
  Substring n s → Substring n (String c s).
Proof. apply (Substring_app_r n (String c "") s). Qed.

Lemma all_chars_app (p : ascii → bool) (a b : string) :
  all_chars p (a +:+ b) = all_chars p a && all_chars p b.
Proof.
  induction a as [|x a IH]; [done|].
  rewrite str_app_cons. simpl. by rewrite IH, andb_assoc.
Qed.

Lemma all_chars_Substring (p : ascii → bool) (n s : string) :
  Substring n s → all_chars p s = true → all_chars p n = true.
Proof.
  intros (pre & post & ->). rewrite !all_chars_app, !andb_true_iff. tauto.
Qed.

Lemma lower_app (a b : string) : lower (a +:+ b) = lower a +:+ lower b.
Proof.
  induction a as [|x a IH]; [done|].
  rewrite str_app_cons. simpl. by rewrite IH.
Qed.

Lemma lower_char_isspace (c : ascii) : isspace (lower_char c) = isspace c.
Proof. by destruct c as [[] [] [] [] [] [] [] []]. Qed.

Lemma lower_char_newline (c : ascii) : lower_char c = newline ↔ c = newline.
Proof. destruct c as [[] [] [] [] [] [] [] []]; by vm_compute. Qed.

Lemma all_chars_lower_isspace (s : string) :
  all_chars isspace (lower s) = all_chars isspace s.
Proof.
  induction s as [|c s IH]; [done|]. simpl. by rewrite lower_char_isspace, IH.
Qed.

(** Stripping leaves nothing exactly when every character is white space. *)
Lemma is_empty_rstrip (s : string) : is_empty (rstrip s) = all_chars isspace s.
Proof.
  induction s as [|c s IH]; [done|]. simpl. rewrite <- IH.
  by destruct (isspace c), (is_empty (rstrip s)).
Qed.

Lemma all_chars_lstrip (s : string) :
  all_chars isspace (lstrip s) = all_chars isspace s.
Proof.
  induction s as [|c s IH]; [done|]. simpl.
  destruct (isspace c) eqn:E; simpl; by rewrite ?E.
Qed.

Lemma is_empty_strip (s : string) : is_empty (strip s) = all_chars isspace s.
Proof. unfold strip. by rewrite is_empty_rstrip, all_chars_lstrip. Qed.

Lemma is_empty_true (s : string) : is_empty s = true ↔ s = "".
Proof. by destruct s. Qed.

End PyStrFacts.

Section SplitFacts.
Import PyStr.

Lemma split_not_nil (sep : ascii) (s : string) : split sep s ≠ [].
Proof.
  destruct s as [|c s]; simpl; [done|].
  case_bool_decide; [done|]. by destruct (split sep s).
Qed.

Lemma split_cons_ne (sep c : ascii) (s : string) :
  c ≠ sep →
  split sep (String c s) = String c (hd "" (split sep s)) :: tail (split sep s).
Proof.
  intros Hc. simpl. rewrite bool_decide_eq_false_2 by done.
  pose proof (split_not_nil sep s). by destruct (split sep s).
Qed.

Lemma split_cons_eq (sep : ascii) (s : string) :
  split sep (String sep s) = "" :: split sep s.
Proof. simpl. by rewrite bool_decide_eq_true_2. Qed.

Lemma hd_tail_split (sep : ascii) (s : string) :
  split sep s = hd "" (split sep s) :: tail (split sep s).
Proof. pose proof (split_not_nil sep s). by destruct (split sep s). Qed.

(** Splitting loses nothing: joining the pieces gives the text back. *)
Lemma join_split (sep : ascii) (s : string) : join sep (split sep s) = s.
Proof.
  induction s as [|c s IH]; [done|].
  destruct (decide (c = sep)) as [->|Hc].
  - rewrite split_cons_eq.
    pose proof (split_not_nil sep s).
    change (join sep ("" :: split sep s))
      with (match split sep s with [] => "" | _ => "" +:+ String sep (join sep (split sep s)) end).
    destruct (split sep s); [done|]. by rewrite str_app_nil, IH.
  - rewrite split_cons_ne by done. rewrite (hd_tail_split sep s) in IH.
    destruct (tail (split sep s)) as [|l ls].
    + simpl in *. by rewrite IH.
    + change (String c (hd "" (split sep s)) +:+ String sep (join sep (l :: ls)) = String c s).
      rewrite str_app_cons. f_equal. exact IH.
Qed.

Lemma has_char_cons (sep c : ascii) (s : string) :
  has_char sep (String c s) = false ↔ c ≠ sep ∧ has_char sep s = false.
Proof.
  unfold has_char. simpl. rewrite !negb_false_iff, andb_true_iff, negb_true_iff.
  by rewrite bool_decide_eq_false.
Qed.

(** No piece contains the separator. *)
Lemma split_no_sep (sep : ascii) (s l : string) :
  l ∈ split sep s → has_char sep l = false.
Proof.
  revert l. induction s as [|c s IH]; intros l.
  - simpl. by intros ->%list_elem_of_singleton.
  - destruct (decide (c = sep)) as [->|Hc].
    + rewrite split_cons_eq. intros [->|?]%elem_of_cons; [done | by apply IH].
    + rewrite split_cons_ne by done. intros [->|Hl]%elem_of_cons.
      * apply has_char_cons. split; [done|]. apply IH.
        rewrite (hd_tail_split sep s). left.
      * apply IH. rewrite (hd_tail_split sep s). by right.
Qed.

(** Every piece occurs in the text. *)
Lemma split_Substring (sep : ascii) (s l : string) :
  l ∈ split sep s → Substring l s.
Proof.
  revert l. induction s as [|c s IH]; intros l.
  - simpl. intros ->%list_elem_of_singleton. by exists "", "".
  - destruct (decide (c = sep)) as [->|Hc].
    + rewrite split_cons_eq. intros [->|?]%elem_of_cons.
      * by exists "", (String sep s).
      * by apply Substring_cons, IH.
    + rewrite split_cons_ne by done. intros [->|Hl]%elem_of_cons.
      * assert (startswith (hd "" (split sep s)) s = true) as [post Hp]%startswith_spec.
        { clear IH. induction s as [|d s IHs]; [done|].
          destruct (decide (d = sep)) as [->|Hd].
          - by rewrite split_cons_eq.
          - rewrite split_cons_ne by done. simpl.
            by rewrite bool_decide_eq_true_2, IHs. }
        exists "", post. by rewrite str_app_nil, str_app_cons, <- Hp.
      * apply Substring_cons, IH. rewrite (hd_tail_split sep s). by right.
Qed.

Lemma Substring_trans (a b c : string) :
  Substring a b → Substring b c → Substring a c.
Proof.
  intros (p1 & q1 & ->) (p2 & q2 & ->).
  exists (p2 +:+ p1), (q1 +:+ q2). by rewrite !app_assoc_str.
Qed.

Lemma startswith_hd_split (sep : ascii) (n s : string) :
  has_char sep n = false → startswith n s = true →
  startswith n (hd "" (split sep s)) = true.
Proof.
  revert s. induction n as [|a n IH]; intros s Hn Hs; [done|].
  apply has_char_cons in Hn as [Ha Hn].
  destruct s as [|b s]; [done|]. simpl in Hs.
  apply andb_true_iff in Hs as [->%bool_decide_eq_true Hs].
  rewrite split_cons_ne by done. simpl.
  rewrite bool_decide_eq_true_2 by done. by apply IH.
Qed.

(** An occurrence of a string without the separator lies within one piece. *)
Lemma contains_split (sep : ascii) (n s : string) :
  has_char sep n = false → contains n s = true →
  ∃ l, l ∈ split sep s ∧ contains n l = true.
Proof.
  intros Hn. induction s as [|c s IH]; intros Hs.
  - exists "". split; [by left | done].
  - cbn [contains] in Hs. apply orb_true_iff in Hs as [Hs|Hs].
    + exists (hd "" (split sep (String c s))). split.
      * rewrite (hd_tail_split sep (String c s)) at 2. by left.
      * apply contains_spec. apply (startswith_hd_split sep) in Hs; [|done].
        apply startswith_spec in Hs as [post Hp]. by exists "", post.
    + destruct (IH Hs) as (l & Hl & Hc).
      destruct (decide (c = sep)) as [->|Hne].
      * exists l. rewrite split_cons_eq. split; [by right | done].
      * rewrite split_cons_ne by done.
        rewrite (hd_tail_split sep s) in Hl. apply elem_of_cons in Hl as [->|Hl].
        -- exists (String c (hd "" (split sep s))). split; [by left|].
           apply contains_spec, Substring_cons. by apply contains_spec.
        -- exists l. split; [by right | done].
Qed.

Lemma split_lower (s : string) :
  split newline (lower s) = lower <$> split newline s.
Proof.
  induction s as [|c s IH]; [done|].
  destruct (decide (c = newline)) as [->|Hc].
  - rewrite split_cons_eq.
    change (lower (String newline s)) with (String newline (lower s)).
    by rewrite split_cons_eq, IH.
  - rewrite split_cons_ne by done.
    change (lower (String c s)) with (String (lower_char c) (lower s)).
    rewrite split_cons_ne by (by rewrite lower_char_newline).
    rewrite IH. pose proof (split_not_nil newline s).
    by destruct (split newline s).
Qed.

Lemma has_char_lower_newline (s : string) :
  has_char newline (lower s) = has_char newline s.
Proof.
  unfold has_char. f_equal. induction s as [|c s IH]; [done|].
  simpl. rewrite IH. f_equal. f_equal.
  destruct (decide (c = newline)) as [->|Hc]; [done|].
  rewrite !bool_decide_eq_false_2; [done..|]. by rewrite lower_char_newline.
Qed.

End SplitFacts.

(* ===================================================================== *)
(** ** The matcher *)
(* ===================================================================== *)

Section SearchFacts.
Import PyStr.
Variable pdf_reader : string → string + list string.

Lemma search_pdf_extracted (files : Os.file_system) (pdf_path data : string)
    (pages : list string) (search_name : string) :
  Os.read files pdf_path = inr data → pdf_reader data = inr pages →
  Search.search_pdf pdf_reader files pdf_path search_name
  = Search.search_text (Search.full_text pages) search_name.
Proof. intros Hr Hp. unfold Search.search_pdf. by rewrite Hr, Hp. Qed.

Lemma search_text_found (text search_name : string) :
  (Search.search_text text search_name).1 = contains (lower search_name) (lower text).
Proof. unfold Search.search_text. by destruct (contains _ _). Qed.

Lemma search_text_context (text search_name : string) :
  (Search.search_text text search_name).2
  = if contains (lower search_name) (lower text)
    then firstn 3 (strip <$> List.filter (Search.line_matches search_name)
                               (split newline text))
    else [].
Proof. unfold Search.search_text. by destruct (contains _ _). Qed.

(** A line of the text that contains the search string makes the text
    contain it. *)
Lemma line_contains_text (text search_name line : string) :
  line ∈ split newline text →
  contains (lower search_name) (lower line) = true →
  contains (lower search_name) (lower text) = true.
Proof.
  intros Hl Hc. apply contains_spec. apply contains_spec in Hc.
  eapply Substring_trans; [exact Hc|].
  apply (split_Substring newline). rewrite split_lower.
  by apply list_elem_of_fmap_2.
Qed.

(** A blank line contains only blank search strings. *)
Lemma line_matches_nonblank (search_name line : string) :
  all_chars isspace search_name = false →
  Search.line_matches search_name line
  = contains (lower search_name) (lower line).
Proof.
  intros Hs. unfold Search.line_matches.
  destruct (contains (lower search_name) (lower line)) eqn:Hc; [|done].
  rewrite is_empty_strip. simpl.
  destruct (all_chars isspace line) eqn:Hl; [|done].
  apply contains_spec in Hc.
  apply (all_chars_Substring isspace) in Hc.
  - rewrite all_chars_lower_isspace in Hc. congruence.
  - by rewrite all_chars_lower_isspace.
Qed.

Lemma filter_none {A} (f : A → bool) (l : list A) :
  (∀ x, x ∈ l → f x = false) → List.filter f l = [].
Proof.
  induction l as [|a l IH]; intros H; [done|]. simpl.
  rewrite (H a) by left. apply IH. intros x Hx. apply H. by right.
Qed.

Lemma filter_ext_bool {A} (f g : A → bool) (l : list A) :
  (∀ x, f x = g x) → List.filter f l = List.filter g l.
Proof. intros H. induction l as [|a l IH]; [done|]. simpl. by rewrite H, IH. Qed.

Lemma filter_elem {A} (f : A → bool) (l : list A) (x : A) :
  x ∈ List.filter f l → x ∈ l ∧ f x = true.
Proof. rewrite !list_elem_of_In. apply filter_In. Qed.

End SearchFacts.

(* ===================================================================== *)
(** ** Claims about the matcher *)
(* ===================================================================== *)

Section MatcherClaims.
Import PyStr.

(** C1, as amended.  For a PDF whose pages are extracted, with [text] the
    concatenation of the page texts, each followed by a newline:
    [search_pdf] reports found exactly when the case-folded search string
    occurs in the case-folded text; when found, the context is the first
    three (or fewer) lines, trimmed and in original order, that contain the
    search string case-insensitively and are not blank; for a search string
    with a non-blank character this is the list the specification words;
    a single matching line is returned alone, and from three matching
    lines on exactly three are returned. *)
Theorem search_pdf_context (pdf_reader : string → string + list string)
    (files : Os.file_system) (pdf_path data : string) (pages : list string)
    (search_name : string) :
  Os.read files pdf_path = inr data →
  pdf_reader data = inr pages →
  let text := Search.full_text pages in
  let lines := split newline text in
  let r := Search.search_pdf pdf_reader files pdf_path search_name in
  (r.1 = true ↔ Substring (lower search_name) (lower text))
  ∧ (r.1 = true →
     r.2 = firstn 3
             (strip <$>
                List.filter
                  (λ line, contains (lower search_name) (lower line)
                           && negb (is_empty (strip line)))
                  lines))
  ∧ (r.1 = false → r.2 = [])
  ∧ (all_chars isspace search_name = false → r.1 = true →
     r.2 = Spec.context_lines text search_name)
  ∧ (∀ before line after,
       lines = before ++ line :: after →
       Search.line_matches search_name line = true →
       (∀ l, l ∈ before ++ after → Search.line_matches search_name l = false) →
       r = (true, [strip line]))
  ∧ (3 ≤ length (List.filter (Search.line_matches search_name) lines) → r.1 = true)
  ∧ (3 ≤ length (List.filter (Search.line_matches search_name) lines) →
     length r.2 = 3).
Proof.
  intros Hread Hpages text lines r.
  assert (Hr : r = Search.search_text text search_name)
    by (by apply search_pdf_extracted with data).
  assert (Hin : ∀ line, line ∈ lines → Search.line_matches search_name line = true →
                contains (lower search_name) (lower text) = true).
  { intros line Hl [Hc _]%andb_true_iff. by apply line_contains_text with line. }
  rewrite Hr, search_text_found, search_text_context.
  split_and!.
  - apply contains_spec.
  - by intros ->.
  - by intros ->.
  - intros Hs ->. unfold Spec.context_lines. do 2 f_equal.
    apply filter_ext_bool. intros line. by apply line_matches_nonblank.
  - intros before line after Hl Hm Hrest.
    unfold Search.search_text.
    rewrite (Hin line); [| rewrite Hl; set_solver | done].
    f_equal. fold lines. rewrite Hl.
    rewrite List.filter_app. simpl. rewrite Hm.
    rewrite !filter_none; [done | |]; intros l Hl'; apply Hrest; set_solver.
  - destruct (List.filter (Search.line_matches search_name) lines) as [|a l] eqn:E;
      [simpl; lia|].
    intros _.
    assert (Ha : a ∈ List.filter (Search.line_matches search_name) lines)
      by (rewrite E; left).
    apply filter_elem in Ha as [Ha1 Ha2]. by apply Hin with a.
  - destruct (List.filter (Search.line_matches search_name) lines) as [|a l] eqn:E;
      [simpl; lia|].
    intros Hlen.
    assert (Ha : a ∈ List.filter (Search.line_matches search_name) lines)
      by (rewrite E; left).
    apply filter_elem in Ha as [Ha1 Ha2]. rewrite (Hin a Ha1 Ha2).
    fold lines. rewrite E, length_take, length_fmap. lia.
Qed.

Lemma search_pdf_context_witness :
  let files := Examples.one_file "dse_pdfs/cap1/1002_4.pdf"
                 ("John Doe" +:+ Examples.nl +:+ "Jane Roe") in
  Os.read files "dse_pdfs/cap1/1002_4.pdf"
    = inr ("John Doe" +:+ Examples.nl +:+ "Jane Roe")
  ∧ Examples.plain_reader ("John Doe" +:+ Examples.nl +:+ "Jane Roe")
    = inr ["John Doe" +:+ Examples.nl +:+ "Jane Roe"]
  ∧ Search.search_pdf Examples.plain_reader files "dse_pdfs/cap1/1002_4.pdf" "DOE"
    = (true, ["John Doe"]).
Proof.
  intros files. split; [reflexivity|]. split; [reflexivity|].
  pose proof (search_pdf_context Examples.plain_reader files
                "dse_pdfs/cap1/1002_4.pdf" _ _ "DOE" eq_refl eq_refl)
    as (_ & _ & _ & _ & Hone & _ & _).
  apply (Hone [] "John Doe" ["Jane Roe"; ""]); [reflexivity | reflexivity |].
  intros l Hl. apply list_elem_of_In in Hl.
  destruct Hl as [<-|[<-|[]]]; reflexivity.
Defined.

(** C1 as the specification states it fails: for a search string of blanks
    the lines that contain it but are blank are left out of the context. *)
Lemma search_pdf_context_counterexample :
  ¬ (∀ (pdf_reader : string → string + list string) (files : Os.file_system)
       (pdf_path data : string) (pages : list string) (search_name : string),
       Os.read files pdf_path = inr data →
       pdf_reader data = inr pages →
       (Search.search_pdf pdf_reader files pdf_path search_name).1 = true →
       (Search.search_pdf pdf_reader files pdf_path search_name).2
       = Spec.context_lines (Search.full_text pages) search_name).
Proof.
  intros H.
  specialize (H Examples.plain_reader
                (Examples.one_file "dse_pdfs/cap1/1002_4.pdf"
                   ("a   b" +:+ Examples.nl +:+ "   "))
                "dse_pdfs/cap1/1002_4.pdf" _ _ "   " eq_refl eq_refl eq_refl).
  vm_compute in H. discriminate H.
Qed.

End MatcherClaims.

(* ===================================================================== *)
(** ** The search orchestrator *)
(* ===================================================================== *)

Section OrchestratorFacts.
Import PyStr.
Variable pdf_reader : string → string + list string.
Variable colleges_data : gmap string college.
Variable files : Os.file_system.
Variable search_name : string.

Local Abbreviation search_file := (Search.search_file pdf_reader colleges_data files search_name).
Local Abbreviation search_round := (Search.search_round pdf_reader colleges_data files search_name).

Local Abbreviation entry_of := (Search.entry_of colleges_data).

Lemma search_file_found (cap_dir file : string) (acc : list result_entry)
    (ctx : list string) :
  Search.search_pdf pdf_reader files (Os.path_join cap_dir file) search_name = (true, ctx) →
  search_file cap_dir acc file = acc ++ [entry_of file ctx].
Proof. intros H. unfold Search.search_file. by rewrite H. Qed.


Lemma search_file_cases (cap_dir file : string) (acc : list result_entry) :
  search_file cap_dir acc file = acc
  ∨ ∃ ctx, search_file cap_dir acc file = acc ++ [entry_of file ctx].
Proof.
  unfold Search.search_file.
  destruct (Search.search_pdf _ _ _ _) as [[] ctx]; eauto.
Qed.


(** Every entry of a round was made by [entry_of] from a listed file. *)
Lemma search_files_entries (cap_dir : string) (names : list string)
    (acc : list result_entry) (P : result_entry → Prop) :
  Forall P acc →
  (∀ file ctx, file ∈ names → P (entry_of file ctx)) →
  Forall P (fold_left (search_file cap_dir) names acc).
Proof.
  revert acc. induction names as [|file names IH]; intros acc Hacc HP; [done|].
  simpl. apply IH.
  - destruct (search_file_cases cap_dir file acc) as [->|[ctx ->]]; [done|].
    apply Forall_app. split; [done|]. apply Forall_singleton, HP. by left.
  - intros f ctx Hf. apply HP. by right.
Qed.

Lemma search_all_pdfs_rounds :
  Search.search_all_pdfs pdf_reader colleges_data files search_name
  = search_round (<["cap1" := []]> (<["cap2" := []]> ∅)) "cap1"
      ≫= λ results, search_round results "cap2".
Proof. reflexivity. Qed.

Lemma search_round_entries (results results' : gmap string (list result_entry))
    (cap_round : string) (P : result_entry → Prop) :
  (∀ file ctx, P (entry_of file ctx)) →
  (∀ k entries, results !! k = Some entries → Forall P entries) →
  search_round results cap_round = Some results' →
  ∀ k entries, results' !! k = Some entries → Forall P entries.
Proof.
  intros HP Hres. unfold Search.search_round.
  destruct (negb _); [by intros [= <-]|].
  destruct (Os.listdir _ _) as [names|]; [|done].
  intros [= <-] k entries.
  destruct (decide (cap_round = k)) as [->|Hk].
  - rewrite lookup_insert_eq. intros [= <-].
    apply search_files_entries; [|by intros].
    destruct (results !! k) as [old|] eqn:E; simpl; [by eapply Hres | done].
  - rewrite lookup_insert_ne by done. apply Hres.
Qed.

(** A round never raises when its directory is absent or a directory. *)
Lemma search_round_total (results : gmap string (list result_entry))
    (cap_round : string) :
  (∀ data, files !! (pdf_dir +:+ "/" +:+ cap_round) ≠ Some (Os.File data)) →
  is_Some (search_round results cap_round).
Proof.
  intros H. unfold Search.search_round, Os.exists_, Os.listdir.
  destruct (files !! _) as [[es|data]|]; simpl; [eauto | | eauto].
  by destruct (H data).
Qed.

End OrchestratorFacts.

Section OrchestratorLoop.
Import PyStr.
Variable pdf_reader : string → string + list string.
Variable colleges_data : gmap string college.
Variable files : Os.file_system.
Variable search_name : string.

(** The loop over the files of a round appends, in listing order, one entry
    for every file in which the name is found. *)
Lemma search_files_omap (cap_dir : string) (names : list string)
    (acc : list result_entry) :
  fold_left (Search.search_file pdf_reader colleges_data files search_name cap_dir)
    names acc
  = acc ++ omap (λ file,
                   match Search.search_pdf pdf_reader files
                           (Os.path_join cap_dir file) search_name with
                   | (true, ctx) => Some (Search.entry_of colleges_data file ctx)
                   | (false, _) => None
                   end) names.
Proof.
  revert acc. induction names as [|file names IH]; intros acc; simpl.
  - by rewrite app_nil_r.
  - rewrite IH. unfold Search.search_file.
    destruct (Search.search_pdf _ _ _ _) as [[] ctx]; simpl; [|done].
    by rewrite <- app_assoc.
Qed.

Lemma search_round_cases (results : gmap string (list result_entry))
    (cap_round : string) :
  Search.search_round pdf_reader colleges_data files search_name results cap_round
  = match files !! (pdf_dir +:+ "/" +:+ cap_round) with
    | None => Some results
    | Some (Os.Dir names) =>
        Some (<[cap_round :=
                  fold_left
                    (Search.search_file pdf_reader colleges_data files search_name
                       (pdf_dir +:+ "/" +:+ cap_round))
                    (List.filter (endswith ".pdf") names)
                    (default [] (results !! cap_round))]> results)
    | Some (Os.File _) => None
    end.
Proof.
  unfold Search.search_round, Os.exists_, Os.listdir.
  by destruct (files !! _) as [[names|data]|].
Qed.

End OrchestratorLoop.

Section OrchestratorLookup.
Import PyStr.

(** The result of [search_all_pdfs], key by key. *)
Lemma search_all_pdfs_lookup (pdf_reader : string → string + list string)
    (colleges_data : gmap string college) (files : Os.file_system)
    (search_name : string) (results : gmap string (list result_entry)) :
  Search.search_all_pdfs pdf_reader colleges_data files search_name = Some results →
  (∀ cap_round,
     cap_round ∈ ["cap1"; "cap2"] →
     results !! cap_round
     = Some (match Os.listdir files (pdf_dir +:+ "/" +:+ cap_round) with
             | None => []
             | Some names =>
                 omap (λ file,
                         match Search.search_pdf pdf_reader files
                                 (Os.path_join (pdf_dir +:+ "/" +:+ cap_round) file)
                                 search_name with
                         | (true, ctx) => Some (Search.entry_of colleges_data file ctx)
                         | (false, _) => None
                         end)
                      (List.filter (endswith ".pdf") names)
             end))
  ∧ (∀ k, k ∉ ["cap1"; "cap2"] → results !! k = None).
Proof.
  intros Hres. rewrite search_all_pdfs_rounds in Hres.
  rewrite !search_round_cases in Hres.
  assert (Hfst : ∀ k : string,
            k ∈ ["cap1"; "cap2"] ↔ k = "cap1" ∨ k = "cap2").
  { intros k. rewrite !elem_of_cons, elem_of_nil. tauto. }
  unfold Os.listdir.
  destruct (files !! (pdf_dir +:+ "/" +:+ "cap1")) as [[names1|d1]|] eqn:E1;
    simpl in Hres; [| done |];
    rewrite search_round_cases in Hres;
    destruct (files !! (pdf_dir +:+ "/" +:+ "cap2")) as [[names2|d2]|] eqn:E2;
    simpl in Hres; try done; injection Hres as <-;
    (split;
     [ intros c [->| ->]%Hfst; rewrite ?E1, ?E2;
       repeat (rewrite lookup_insert_eq || (rewrite lookup_insert_ne by done));
       rewrite ?search_files_omap; try done
     | intros k Hk;
       assert (k ≠ "cap1" ∧ k ≠ "cap2") as [? ?] by (rewrite Hfst in Hk; tauto);
       repeat (rewrite lookup_insert_ne by done); done ]).
Qed.

End OrchestratorLookup.

Section OrchestratorClaims.
Import PyStr.

Lemma split_hd_prefix (sep : ascii) (s : string) :
  let c := hd "" (split sep s) in
  has_char sep c = false ∧ (s = c ∨ ∃ rest, s = c +:+ String sep rest).
Proof.
  induction s as [|x s IH]; simpl.
  - split; [done | by left].
  - case_bool_decide as Hx.
    + subst x. split; [done|]. right. by exists s.
    + pose proof (split_not_nil sep s) as Hne.
      destruct (split sep s) as [|h t]; [done|]. simpl in *.
      destruct IH as [Hh Hs]. split.
      * by apply has_char_cons.
      * destruct Hs as [->|[rest ->]]; [by left|]. right. by exists rest.
Qed.

Lemma search_text_lower (text s s' : string) :
  lower s = lower s' → Search.search_text text s = Search.search_text text s'.
Proof.
  intros H. unfold Search.search_text, Search.line_matches. by rewrite H.
Qed.

Lemma search_round_listed (pdf_reader : string → string + list string)
    (colleges_data : gmap string college) (files : Os.file_system)
    (search_name cap_round : string) (names : list string)
    (results : gmap string (list result_entry)) :
  files !! (pdf_dir +:+ "/" +:+ cap_round) = Some (Os.Dir names) →
  Search.search_round pdf_reader colleges_data files search_name results cap_round
  = Some (<[cap_round :=
              fold_left
                (Search.search_file pdf_reader colleges_data files search_name
                   (pdf_dir +:+ "/" +:+ cap_round))
                (List.filter (endswith ".pdf") names)
                (default [] (results !! cap_round))]> results).
Proof.
  intros H. unfold Search.search_round, Os.exists_, Os.listdir. by rewrite H.
Qed.

(** C2.  For every file listed in a round directory whose name ends in
    ".pdf" and in which [search_pdf] finds the name, [search_all_pdfs]
    records under that round an entry for that file, carrying as institution
    code the part of the file name before the first underscore, as college
    name the catalog's name for that code, or "Institute " followed by the
    code when the catalog has none, and as context the lines [search_pdf]
    returned; and every entry it returns is the entry of such a file.  With
    "1002" named "Test College" in the catalog, the one file
    [dse_pdfs/cap1/1002_4.pdf] holding the lines "John Doe" and "Jane Roe",
    and a search string that case-folds to "doe", the result is one entry
    under cap1, with code "1002", name "Test College" and context
    ["John Doe"], and none under cap2. *)
Theorem search_all_pdfs_institute (pdf_reader : string → string + list string)
    (colleges_data : gmap string college) (files : Os.file_system)
    (search_name : string) :
  (∀ results cap_round entries e,
     Search.search_all_pdfs pdf_reader colleges_data files search_name = Some results →
     results !! cap_round = Some entries →
     e ∈ entries →
     has_char underscore (institute_code e) = false
     ∧ (pdf_file e = institute_code e
        ∨ ∃ rest, pdf_file e = institute_code e +:+ String underscore rest)
     ∧ college_name e
       = match colleges_data !! institute_code e with
         | Some r => name r
         | None => "Institute " +:+ institute_code e
         end)
  ∧ (∀ results cap_round names file ctx,
       Search.search_all_pdfs pdf_reader colleges_data files search_name = Some results →
       cap_round ∈ ["cap1"; "cap2"] →
       Os.listdir files (pdf_dir +:+ "/" +:+ cap_round) = Some names →
       file ∈ names →
       endswith ".pdf" file = true →
       Search.search_pdf pdf_reader files
         (Os.path_join (pdf_dir +:+ "/" +:+ cap_round) file) search_name = (true, ctx) →
       ∃ entries e,
         results !! cap_round = Some entries
         ∧ e ∈ entries
         ∧ pdf_file e = file
         ∧ context e = ctx
         ∧ has_char underscore (institute_code e) = false
         ∧ (file = institute_code e
            ∨ ∃ rest, file = institute_code e +:+ String underscore rest)
         ∧ college_name e
           = match colleges_data !! institute_code e with
             | Some r => name r
             | None => "Institute " +:+ institute_code e
             end)
  ∧ (∀ results cap_round entries e,
       Search.search_all_pdfs pdf_reader colleges_data files search_name = Some results →
       results !! cap_round = Some entries →
       e ∈ entries →
       cap_round ∈ ["cap1"; "cap2"]
       ∧ ∃ names,
           Os.listdir files (pdf_dir +:+ "/" +:+ cap_round) = Some names
           ∧ pdf_file e ∈ names
           ∧ endswith ".pdf" (pdf_file e) = true
           ∧ Search.search_pdf pdf_reader files
               (Os.path_join (pdf_dir +:+ "/" +:+ cap_round) (pdf_file e)) search_name
             = (true, context e))
  ∧ (∀ r data pages,
       colleges_data !! "1002" = Some r →
       name r = "Test College" →
       files !! "dse_pdfs/cap1" = Some (Os.Dir ["1002_4.pdf"]) →
       files !! "dse_pdfs/cap2" = Some (Os.Dir []) →
       files !! "dse_pdfs/cap1/1002_4.pdf" = Some (Os.File data) →
       pdf_reader data = inr pages →
       Search.full_text pages = Examples.john_jane +:+ Examples.nl →
       lower search_name = "doe" →
       Search.search_all_pdfs pdf_reader colleges_data files search_name
       = Some {[ "cap1" := [ {| institute_code := "1002";
                                college_name := "Test College";
                                pdf_file := "1002_4.pdf";
                                context := ["John Doe"] |} ];
                 "cap2" := [] ]}).
Proof.
  assert (Hfields : ∀ file ctx,
            let e := Search.entry_of colleges_data file ctx in
            has_char underscore (institute_code e) = false
            ∧ (file = institute_code e
               ∨ ∃ rest, file = institute_code e +:+ String underscore rest)
            ∧ college_name e
              = match colleges_data !! institute_code e with
                | Some r => name r
                | None => "Institute " +:+ institute_code e
                end).
  { intros file ctx. unfold Search.entry_of. simpl.
    by destruct (split_hd_prefix underscore file) as [H1 H2]. }
  assert (Hsound : ∀ results cap_round entries e,
            Search.search_all_pdfs pdf_reader colleges_data files search_name
            = Some results →
            results !! cap_round = Some entries →
            e ∈ entries →
            cap_round ∈ ["cap1"; "cap2"]
            ∧ ∃ names file,
                Os.listdir files (pdf_dir +:+ "/" +:+ cap_round) = Some names
                ∧ file ∈ names
                ∧ endswith ".pdf" file = true
                ∧ Search.search_pdf pdf_reader files
                    (Os.path_join (pdf_dir +:+ "/" +:+ cap_round) file) search_name
                  = (true, context e)
                ∧ e = Search.entry_of colleges_data file (context e)).
  { intros results cap_round entries e Hres Hk He.
    destruct (search_all_pdfs_lookup _ _ _ _ _ Hres) as [Hrounds Hothers].
    destruct (decide (cap_round ∈ ["cap1"; "cap2"])) as [Hin|Hout];
      [|by rewrite Hothers in Hk].
    split; [done|]. rewrite (Hrounds _ Hin) in Hk. injection Hk as <-.
    destruct (Os.listdir files _) as [names|]; [|by apply elem_of_nil in He].
    apply list_elem_of_omap in He as (file & Hfile & Hf).
    apply filter_elem in Hfile as [Hfile Hpdf].
    destruct (Search.search_pdf _ _ _ _) as [[] ctx] eqn:Hs; [|done].
    injection Hf as <-. by exists names, file. }
  split_and!.
  - intros results cap_round entries e Hres Hk He.
    destruct (Hsound _ _ _ _ Hres Hk He) as (_ & names & file & _ & _ & _ & _ & ->).
    apply Hfields.
  - intros results cap_round names file ctx Hres Hcap Hlist Hfile Hpdf Hs.
    destruct (search_all_pdfs_lookup _ _ _ _ _ Hres) as [Hrounds _].
    rewrite (Hrounds _ Hcap), Hlist.
    eexists _, (Search.entry_of colleges_data file ctx).
    split; [done|]. split.
    + apply list_elem_of_omap. exists file. split; [|by rewrite Hs].
      apply list_elem_of_In, filter_In. split; [by apply list_elem_of_In | done].
    + split; [done|]. split; [done|]. apply Hfields.
  - intros results cap_round entries e Hres Hk He.
    destruct (Hsound _ _ _ _ Hres Hk He)
      as (Hcap & names & file & Hlist & Hfile & Hpdf & Hs & He').
    split; [done|]. exists names.
    assert (Hpf : pdf_file e = file) by (by rewrite He').
    rewrite Hpf. by split_and!.
  - intros r data pages Hcat Hname Hcap1 Hcap2 Hfile Hread Htext Hlow.
    rewrite search_all_pdfs_rounds.
    rewrite (search_round_listed _ _ _ _ "cap1" ["1002_4.pdf"]) by exact Hcap1.
    simpl.
    rewrite (search_round_listed _ _ _ _ "cap2" []) by exact Hcap2.
    f_equal.
    assert (Hs : Search.search_pdf pdf_reader files
                   (Os.path_join (pdf_dir +:+ "/" +:+ "cap1") "1002_4.pdf") search_name
                 = (true, ["John Doe"])).
    { unfold Search.search_pdf, Os.read.
      change (Os.path_join (pdf_dir +:+ "/" +:+ "cap1") "1002_4.pdf")
        with "dse_pdfs/cap1/1002_4.pdf".
      rewrite Hfile, Hread, Htext.
      rewrite (search_text_lower _ search_name "doe") by done.
      reflexivity. }
    change (List.filter (endswith ".pdf") ["1002_4.pdf"]) with ["1002_4.pdf"].
    cbn [fold_left].
    rewrite (search_file_found _ _ _ _ _ _ _ ["John Doe"]) by exact Hs.
    unfold Search.entry_of, Search.resolve_name.
    change (hd "" (split underscore "1002_4.pdf")) with "1002".
    rewrite Hcat, Hname. reflexivity.
Qed.

Lemma search_all_pdfs_institute_witness :
  Search.search_all_pdfs Examples.plain_reader Examples.test_catalog
    (Examples.test_files Examples.john_jane) "DoE"
  = Some {[ "cap1" := [ {| institute_code := "1002";
                           college_name := "Test College";
                           pdf_file := "1002_4.pdf";
                           context := ["John Doe"] |} ];
            "cap2" := [] ]}.
Proof.
  destruct (search_all_pdfs_institute Examples.plain_reader Examples.test_catalog
              (Examples.test_files Examples.john_jane) "DoE")
    as (_ & _ & _ & Hexample).
  eapply Hexample; reflexivity.
Defined.



(** C9.  When the case-folded search string occurs in the case-folded text
    but in none of its lines, [search_pdf] returns found together with an
    empty context, and [search_all_pdfs] appends for that file an entry
    whose context is empty; a search string lying across the newline put
    between two pages is such an input. *)
Theorem search_pdf_found_without_context (pdf_reader : string → string + list string)
    (colleges_data : gmap string college) (files : Os.file_system)
    (search_name cap_dir file data : string) (pages : list string)
    (acc : list result_entry) :
  Os.read files (Os.path_join cap_dir file) = inr data →
  pdf_reader data = inr pages →
  Substring (lower search_name) (lower (Search.full_text pages)) →
  (∀ line, line ∈ split newline (Search.full_text pages) →
           ¬ Substring (lower search_name) (lower line)) →
  Search.search_pdf pdf_reader files (Os.path_join cap_dir file) search_name = (true, [])
  ∧ Search.search_file pdf_reader colleges_data files search_name cap_dir acc file
    = acc ++ [ {| institute_code := hd "" (split underscore file);
                  college_name :=
                    Search.resolve_name colleges_data (hd "" (split underscore file));
                  pdf_file := file;
                  context := [] |} ].
Proof.
  intros Hread Hpages Hsub Hlines.
  assert (Hs : Search.search_pdf pdf_reader files (Os.path_join cap_dir file) search_name
               = (true, [])).
  { rewrite (search_pdf_extracted _ _ _ data pages) by done.
    unfold Search.search_text.
    apply contains_spec in Hsub. rewrite Hsub.
    rewrite filter_none; [done|].
    intros line Hl. unfold Search.line_matches.
    destruct (contains (lower search_name) (lower line)) eqn:E; [|done].
    apply contains_spec in E. by destruct (Hlines line Hl). }
  split; [exact Hs|]. by rewrite (search_file_found _ _ _ _ _ _ _ []).
Qed.

Lemma search_pdf_found_without_context_witness :
  let files := Examples.one_file "dse_pdfs/cap1/1002_4.pdf" Examples.two_pages in
  let s := "B" +:+ Examples.nl +:+ "C" in
  Examples.plain_reader Examples.two_pages = inr ["ab"; "cd"]
  ∧ Search.search_pdf Examples.plain_reader files
      (Os.path_join "dse_pdfs/cap1" "1002_4.pdf") s = (true, [])
  ∧ Search.search_file Examples.plain_reader Examples.test_catalog files s
      "dse_pdfs/cap1" [] "1002_4.pdf"
    = [ {| institute_code := "1002"; college_name := "Test College";
           pdf_file := "1002_4.pdf"; context := [] |} ].
Proof.
  intros files s. split; [reflexivity|].
  apply (search_pdf_found_without_context Examples.plain_reader Examples.test_catalog
           files s "dse_pdfs/cap1" "1002_4.pdf" Examples.two_pages ["ab"; "cd"] []).
  - reflexivity.
  - reflexivity.
  - by exists "a", ("d" +:+ Examples.nl).
  - intros line Hl Hsub. apply contains_spec in Hsub.
    apply list_elem_of_In in Hl.
    destruct Hl as [<-|[<-|[<-|[]]]]; discriminate Hsub.
Defined.

End OrchestratorClaims.

(* ===================================================================== *)
(** ** The catalog builder *)
(* ===================================================================== *)

Section CatalogFacts.
Import PyStr.

Lemma scrape_row_entry (data : gmap string college) (r : Catalog.row) :
  Catalog.scrape_row data r
  = match Spec.row_entry r with
    | Some (k, v) => <[k := v]> data
    | None => data
    end.
Proof.
  unfold Catalog.scrape_row, Spec.row_entry.
  destruct r as [|c0 [|c1 [|c2 rest]]]; simpl; try done.
  by destruct (isdigit (Catalog.get_text c1)).
Qed.

(** Rows that do not carry the code [k] leave its entry alone. *)
Lemma scrape_rows_other (rows : list Catalog.row) (data : gmap string college)
    (k : string) :
  (∀ r, r ∈ rows → fst <$> Spec.row_entry r ≠ Some k) →
  fold_left Catalog.scrape_row rows data !! k = data !! k.
Proof.
  revert data. induction rows as [|r rows IH]; intros data H; [done|].
  simpl. rewrite IH by (intros r' Hr'; apply H; by right).
  rewrite scrape_row_entry.
  pose proof (H r ltac:(left)) as Hr.
  destruct (Spec.row_entry r) as [[k' v]|]; [|done].
  rewrite lookup_insert_ne; [done|]. intros ->. by apply Hr.
Qed.

Lemma elem_of_range (lo hi n : N) :
  n ∈ Catalog.range lo hi ↔ (lo ≤ n < hi)%N.
Proof.
  unfold Catalog.range. rewrite list_elem_of_fmap. split.
  - intros (i & -> & Hi%elem_of_seq). lia.
  - intros H. exists (N.to_nat (n - lo)). split; [lia|].
    apply elem_of_seq. lia.
Qed.

Lemma elem_of_code_ranges (n : N) :
  n ∈ concat Catalog.code_ranges ↔ Spec.in_fallback_ranges n.
Proof.
  unfold Catalog.code_ranges, Spec.in_fallback_ranges. cbn [concat].
  rewrite !elem_of_app, !elem_of_range, elem_of_nil. tauto.
Qed.

Lemma generate_fallback_codes_concat (data : gmap string college) :
  Catalog.generate_fallback_codes data
  = fold_left (λ d n, <[str n := Catalog.fallback_entry n]> d)
      (concat Catalog.code_ranges) data.
Proof.
  unfold Catalog.generate_fallback_codes.
  generalize Catalog.code_ranges. intros ranges. revert data.
  induction ranges as [|r ranges IH]; intros data; [done|].
  simpl. by rewrite fold_left_app, IH.
Qed.

Lemma fallback_lookup (codes : list N) (data : gmap string college) (k : string)
    (v : college) :
  fold_left (λ d n, <[str n := Catalog.fallback_entry n]> d) codes data !! k = Some v
  ↔ (∃ n, n ∈ codes ∧ k = str n ∧ v = Catalog.fallback_entry n)
    ∨ (data !! k = Some v ∧ ∀ n, n ∈ codes → str n ≠ k).
Proof.
  revert data. induction codes as [|m codes IH]; intros data; simpl.
  - split; [intros H; right; split; [done | intros n Hn; by apply elem_of_nil in Hn]
           | intros [(n & Hn & _)|[H _]]; [by apply elem_of_nil in Hn | done]].
  - rewrite IH. split.
    + intros [(n & Hn & Hk & Hv)|[Hd Hno]].
      * left. exists n. split; [by right | done].
      * destruct (decide (str m = k)) as [Hm|Hm].
        -- subst k. rewrite lookup_insert_eq in Hd. injection Hd as <-.
           left. exists m. split; [by left | done].
        -- rewrite lookup_insert_ne in Hd by done. right. split; [done|].
           intros n [->|Hn]%elem_of_cons; [done | by apply Hno].
    + intros [(n & [->|Hn]%elem_of_cons & Hk & Hv)|[Hd Hno]].
      * destruct (decide (Exists (λ n, str n = k) codes))
          as [(n & Hn & Hnk)%Exists_exists|Hnone].
        -- left. exists n. split; [done|]. split; [done|].
           subst v. unfold Catalog.fallback_entry. by rewrite Hnk, Hk.
        -- right. subst k v. rewrite lookup_insert_eq. split; [done|].
           intros n Hn Hnk. apply Hnone, Exists_exists. by exists n.
      * left. by exists n.
      * right. rewrite lookup_insert_ne by (apply Hno; by left).
        split; [done|]. intros n Hn. apply Hno. by right.
Qed.

End CatalogFacts.

Section CatalogClaims.
Import PyStr.

(** C3.  [scrape_college_data] on a fetched table: the first row has no
    effect; a row with fewer than three cells, or whose code cell is not
    purely numeric, leaves the catalog as it is; a row with a numeric code
    cell stores, under that code, the sequence number, code and name of its
    cells 0, 1 and 2; after the whole table a code maps to the entry of the
    last row that carries it, and codes no row carries keep what they had. *)
Theorem scrape_college_data_rows (data0 : gmap string college)
    (rows : list Catalog.row) :
  let cat := (Catalog.scrape_college_data data0 (Catalog.FetchedRows rows)).1 in
  (∀ header header' body,
     rows = header :: body →
     cat = (Catalog.scrape_college_data data0
              (Catalog.FetchedRows (header' :: body))).1)
  ∧ (∀ d r, length r < 3 → Catalog.scrape_row d r = d)
  ∧ (∀ d c0 c1 c2 rest,
       isdigit (Catalog.get_text c1) = false →
       Catalog.scrape_row d (c0 :: c1 :: c2 :: rest) = d)
  ∧ (∀ d c0 c1 c2 rest,
       isdigit (Catalog.get_text c1) = true →
       Catalog.scrape_row d (c0 :: c1 :: c2 :: rest)
       = <[Catalog.get_text c1 :=
             {| sr_no := Catalog.get_text c0;
                name := Catalog.get_text c2;
                code := Catalog.get_text c1 |}]> d)
  ∧ (∀ before r after k v,
       tail rows = before ++ r :: after →
       Spec.row_entry r = Some (k, v) →
       (∀ r', r' ∈ after → fst <$> Spec.row_entry r' ≠ Some k) →
       cat !! k = Some v)
  ∧ (∀ k, (∀ r, r ∈ tail rows → fst <$> Spec.row_entry r ≠ Some k) →
          cat !! k = data0 !! k).
Proof.
  intros cat. split_and!.
  - by intros header header' body ->.
  - intros d r Hr. rewrite scrape_row_entry.
    destruct r as [|c0 [|c1 [|c2 rest]]]; simpl in *; [done..|lia].
  - intros d c0 c1 c2 rest Hd. rewrite scrape_row_entry. simpl. by rewrite Hd.
  - intros d c0 c1 c2 rest Hd. rewrite scrape_row_entry. simpl. by rewrite Hd.
  - intros before r after k v Hrows Hr Hafter.
    unfold cat. simpl. rewrite Hrows, fold_left_app. simpl.
    rewrite scrape_rows_other by done.
    rewrite scrape_row_entry, Hr. apply lookup_insert_eq.
  - intros k Hk. unfold cat. simpl. by apply scrape_rows_other.
Qed.

Lemma scrape_college_data_rows_witness :
  (Catalog.scrape_college_data ∅ (Catalog.FetchedRows Examples.test_table)).1 !! "1002"
  = Some {| sr_no := "3"; name := "New Name"; code := "1002" |}
  ∧ (Catalog.scrape_college_data ∅ (Catalog.FetchedRows Examples.test_table)).1 !! "abc"
    = None.
Proof.
  pose proof (scrape_college_data_rows ∅ Examples.test_table)
    as (_ & _ & _ & _ & Hlast & Hnone).
  split.
  - apply (Hlast [ [[" 1 "]; ["1002"]; ["Old "; "Name"]];
                   [["x"]; ["abc"]; ["Not an institute"]];
                   [["2"]] ]
             [["3"]; [" 1002"]; ["New Name"]; ["extra"]] []);
      [reflexivity | reflexivity |].
    intros r' Hr'. by apply elem_of_nil in Hr'.
  - rewrite (Hnone "abc"); [reflexivity|].
    intros r Hr. apply list_elem_of_In in Hr.
    destruct Hr as [<-|[<-|[<-|[<-|[]]]]]; discriminate.
Defined.

(** C4.  When the fetch raises, [scrape_college_data] on the empty catalog
    of a new searcher returns [False] and leaves a catalog that is not
    empty and whose entries are exactly: for every number of the eight
    ranges, its decimal form mapped to the name "Institute " followed by
    that form, an empty sequence number and that form as code.  On any
    catalog, every such entry is present afterwards. *)
Theorem scrape_college_data_fallback (e : string) :
  let r := Catalog.scrape_college_data ∅ (Catalog.FetchRaised e) in
  r.2 = false
  ∧ r.1 ≠ ∅
  ∧ (∀ k v,
       r.1 !! k = Some v
       ↔ ∃ n, Spec.in_fallback_ranges n ∧ k = str n
              ∧ v = {| sr_no := ""; name := "Institute " +:+ k; code := k |})
  ∧ (∀ data0 n,
       Spec.in_fallback_ranges n →
       (Catalog.scrape_college_data data0 (Catalog.FetchRaised e)).1 !! str n
       = Some {| sr_no := ""; name := "Institute " +:+ str n; code := str n |}).
Proof.
  intros r.
  assert (Hall : ∀ data0 n,
            Spec.in_fallback_ranges n →
            (Catalog.scrape_college_data data0 (Catalog.FetchRaised e)).1 !! str n
            = Some (Catalog.fallback_entry n)).
  { intros data0 n Hn. simpl. rewrite generate_fallback_codes_concat.
    apply fallback_lookup. left. exists n.
    split; [by apply elem_of_code_ranges | done]. }
  split_and!.
  - done.
  - intros Hempty.
    assert (H : r.1 !! str 1002 = Some (Catalog.fallback_entry 1002)).
    { apply Hall. unfold Spec.in_fallback_ranges. lia. }
    rewrite Hempty, lookup_empty in H. discriminate H.
  - intros k v. unfold r. simpl. rewrite generate_fallback_codes_concat.
    rewrite fallback_lookup. split.
    + intros [(n & Hn & -> & ->)|[H _]]; [|by rewrite lookup_empty in H].
      exists n. split; [by apply elem_of_code_ranges | done].
    + intros (n & Hn & -> & ->). left. exists n.
      split; [by apply elem_of_code_ranges | done].
  - exact Hall.
Qed.

End CatalogClaims.

(* ===================================================================== *)
(** ** The download manager *)
(* ===================================================================== *)

Section DownloadFacts.
Import PyStr.

Lemma length_take_le (n : nat) (s : string) : String.length (take n s) ≤ n.
Proof.
  revert s. induction n as [|n IH]; intros [|c s]; simpl; try lia.
  specialize (IH s). lia.
Qed.

Lemma take_startswith (n : nat) (s : string) : startswith (take n s) s = true.
Proof.
  revert s. induction n as [|n IH]; intros [|c s]; simpl; try done.
  rewrite bool_decide_eq_true_2 by done. by rewrite IH.
Qed.

Lemma length_str_app (a b : string) :
  String.length (a +:+ b) = String.length a + String.length b.
Proof.
  induction a as [|c a IH]; [done|]. rewrite str_app_cons. simpl. by rewrite IH.
Qed.

Lemma tally_step_total (t : Download.tallies) (r : Download.future_result) :
  Download.tally_total (Download.tally_step t r) = S (Download.tally_total t).
Proof.
  unfold Download.tally_total, Download.tally_step.
  destruct r as [path [] message|e]; simpl; [|lia..].
  destruct (contains "Already exists" message); simpl; lia.
Qed.

Lemma tally_fold_total (results : list Download.future_result) (t : Download.tallies) :
  Download.tally_total (fold_left Download.tally_step results t)
  = Download.tally_total t + length results.
Proof.
  revert t. induction results as [|r results IH]; intros t; simpl; [lia|].
  rewrite IH, tally_step_total. lia.
Qed.

Lemma run_tasks_length (http_get : string → Net.outcome) (order : list (string * string))
    (w : world) :
  length (Download.run_tasks http_get w order).2 = length order.
Proof.
  revert w. induction order as [|[c cap] order IH]; intros w; simpl; [done|].
  destruct (Download.download_pdf http_get w c cap) as [w1 r].
  specialize (IH w1). destruct (Download.run_tasks http_get w1 order) as [w2 rs].
  simpl in *. by rewrite IH.
Qed.

Lemma download_tasks_length (colleges_data : gmap string college) :
  length (Download.download_tasks colleges_data) = 2 * size colleges_data.
Proof.
  unfold Download.download_tasks.
  rewrite <- (length_map_to_list colleges_data).
  rewrite <- (length_fmap fst (map_to_list colleges_data)).
  generalize ((map_to_list colleges_data).*1). intros keys.
  induction keys as [|k ks IH]; [reflexivity|].
  rewrite bind_cons, length_app, IH. simpl. lia.
Qed.

End DownloadFacts.

Section DownloadClaims.
Import PyStr.

(** C5.  When something already exists at the local path of the task,
    [download_pdf] returns that path with success and the message
    "Already exists"; the requests sent and the files are as before, the
    existing file included; the server is not consulted, whatever it would
    have answered; and [download_all_pdfs] counts the task under "already
    existed". *)
Theorem download_pdf_already_present (http_get : string → Net.outcome) (w : world)
    (institute_code cap_round : string) (existing : Os.node) :
  fs w !! Download.local_path institute_code cap_round = Some existing →
  let out := Download.download_pdf http_get w institute_code cap_round in
  out.2 = Download.Returned (pdf_dir +:+ "/" +:+ cap_round +:+ "/" +:+ institute_code +:+ "_4.pdf")
            true "Already exists"
  ∧ requests out.1 = requests w
  ∧ fs out.1 = fs w
  ∧ fs out.1 !! Download.local_path institute_code cap_round = Some existing
  ∧ (∀ other_server,
       Download.download_pdf other_server w institute_code cap_round = out)
  ∧ (∀ t, Download.tally_step t out.2
          = {| Download.successful_downloads := Download.successful_downloads t;
               Download.already_exists := S (Download.already_exists t);
               Download.failed_downloads := Download.failed_downloads t |}).
Proof.
  intros Hex out.
  assert (Hout : ∀ server,
            Download.download_pdf server w institute_code cap_round
            = (w, Download.Returned (Download.local_path institute_code cap_round)
                    true "Already exists")).
  { intros server. unfold Download.download_pdf, Os.exists_. by rewrite Hex. }
  unfold out. rewrite !Hout. by split_and!.
Qed.

Lemma download_pdf_already_present_witness :
  let w := {| fs := Examples.test_files Examples.john_jane; requests := [] |} in
  fs w !! Download.local_path "1002" "cap1" = Some (Os.File Examples.john_jane)
  ∧ Download.download_pdf Examples.server w "1002" "cap1"
    = (w, Download.Returned "dse_pdfs/cap1/1002_4.pdf" true "Already exists").
Proof.
  intros w. split; [reflexivity|].
  pose proof (download_pdf_already_present Examples.server w "1002" "cap1"
                (Os.File Examples.john_jane) eq_refl) as (H2 & H3 & H4 & _).
  destruct (Download.download_pdf Examples.server w "1002" "cap1") as [w' r].
  simpl in *. subst r. f_equal. destruct w'. simpl in *. by subst.
Defined.

(** C6.  For a task whose local path does not exist yet: a response whose
    content type does not contain "application/pdf" gives the failure
    "Not a PDF", and a request exception gives the failure "Error: "
    followed by the first 50 characters of the exception text; in both cases
    the files are as before.  In general, whenever the task does not report
    success, the files are as before. *)
Theorem download_pdf_failure (http_get : string → Net.outcome) (w : world)
    (institute_code cap_round : string) :
  let url := Download.pdf_url institute_code cap_round in
  let path := Download.local_path institute_code cap_round in
  let out := Download.download_pdf http_get w institute_code cap_round in
  (∀ content_type content,
     fs w !! path = None →
     http_get url = Net.Response content_type content →
     contains "application/pdf" (default "" content_type) = false →
     out = ({| fs := fs w; requests := url :: requests w |},
            Download.Returned path false "Not a PDF"))
  ∧ (∀ e,
       fs w !! path = None →
       http_get url = Net.RequestException e →
       out = ({| fs := fs w; requests := url :: requests w |},
              Download.Returned path false ("Error: " +:+ take 50 e))
       ∧ startswith (take 50 e) e = true
       ∧ String.length ("Error: " +:+ take 50 e) ≤ 57)
  ∧ (match out.2 with
     | Download.Returned _ success _ => success = false
     | Download.Raised _ => True
     end → fs out.1 = fs w).
Proof.
  intros url path out. split_and!.
  - intros content_type content Hnew Hresp Hct.
    unfold out, Download.download_pdf, Os.exists_. fold url path.
    by rewrite Hnew, Hresp, Hct.
  - intros e Hnew Hresp. split_and!.
    + unfold out, Download.download_pdf, Os.exists_. fold url path.
      by rewrite Hnew, Hresp.
    + apply take_startswith.
    + rewrite length_str_app. pose proof (length_take_le 50 e) as Hle.
      change (String.length "Error: ") with 7. lia.
  - unfold out, Download.download_pdf. fold url path.
    destruct (Os.exists_ (fs w) path); [done|].
    destruct (http_get url) as [e|content_type content]; [done|].
    destruct (contains "application/pdf" (default "" content_type)); [|done].
    simpl. destruct (Os.write (fs w) path content); [|done].
    simpl. discriminate.
Qed.

Lemma download_pdf_failure_witness :
  Download.download_pdf Examples.server Examples.fresh_world "1003" "cap1"
  = ({| fs := fs Examples.fresh_world;
        requests := [Download.pdf_url "1003" "cap1"] |},
     Download.Returned "dse_pdfs/cap1/1003_4.pdf" false "Not a PDF")
  ∧ Download.download_pdf Examples.server Examples.fresh_world "1005" "cap2"
    = ({| fs := fs Examples.fresh_world;
          requests := [Download.pdf_url "1005" "cap2"] |},
       Download.Returned "dse_pdfs/cap2/1005_4.pdf" false
         "Error: 404 Client Error: Not Found for url: https://dse20").
Proof.
  split.
  - pose proof (download_pdf_failure Examples.server Examples.fresh_world "1003" "cap1")
      as (Hct & _ & _).
    apply (Hct (Some "text/html") "<html></html>"); reflexivity.
  - pose proof (download_pdf_failure Examples.server Examples.fresh_world "1005" "cap2")
      as (_ & Hexc & _).
    apply (Hexc ("404 Client Error: Not Found for url: "
                 +:+ Download.pdf_url "1005" "cap2")); reflexivity.
Defined.

(** C10.  [download_all_pdfs] makes two tasks for every entry of the
    catalog; every completed task raises exactly one of the three tallies
    by one; so, in whatever order the tasks complete and whatever each of
    them returns or raises, the three tallies add up to twice the number of
    catalog entries. *)
Theorem download_all_pdfs_tallies (colleges_data : gmap string college) :
  length (Download.download_tasks colleges_data) = 2 * size colleges_data
  ∧ (∀ t r,
       let t' := Download.tally_step t r in
       let s := Download.successful_downloads in
       let a := Download.already_exists in
       let f := Download.failed_downloads in
       (s t' = S (s t) ∧ a t' = a t ∧ f t' = f t)
       ∨ (s t' = s t ∧ a t' = S (a t) ∧ f t' = f t)
       ∨ (s t' = s t ∧ a t' = a t ∧ f t' = S (f t)))
  ∧ (∀ (outcome : string * string → Download.future_result) order,
       order ≡ₚ Download.download_tasks colleges_data →
       let t := Download.tally (outcome <$> order) in
       Download.successful_downloads t + Download.already_exists t
       + Download.failed_downloads t = 2 * size colleges_data)
  ∧ (∀ http_get schedule w,
       schedule (Download.download_tasks colleges_data)
         ≡ₚ Download.download_tasks colleges_data →
       let t := (Download.download_all_pdfs http_get schedule colleges_data w).2 in
       Download.successful_downloads t + Download.already_exists t
       + Download.failed_downloads t = 2 * size colleges_data).
Proof.
  split_and!.
  - apply download_tasks_length.
  - intros t r. unfold Download.tally_step.
    destruct r as [path [] message|e]; simpl; [|tauto..].
    destruct (contains "Already exists" message); simpl; tauto.
  - intros outcome order Hperm t.
    change (Download.tally_total t = 2 * size colleges_data).
    unfold t, Download.tally. rewrite tally_fold_total, length_fmap.
    rewrite (Permutation_length Hperm), download_tasks_length. reflexivity.
  - intros http_get schedule w Hperm t.
    change (Download.tally_total t = 2 * size colleges_data).
    unfold t, Download.download_all_pdfs.
    pose proof (run_tasks_length http_get
                  (schedule (Download.download_tasks colleges_data)) w) as Hlen.
    destruct (Download.run_tasks http_get w _) as [w' results]. simpl in *.
    unfold Download.tally. rewrite tally_fold_total, Hlen.
    rewrite (Permutation_length Hperm), download_tasks_length. reflexivity.
Qed.

Lemma download_all_pdfs_tallies_witness :
  reverse (Download.download_tasks Examples.test_catalog)
    ≡ₚ Download.download_tasks Examples.test_catalog
  ∧ (let t := (Download.download_all_pdfs Examples.server reverse
                 Examples.test_catalog Examples.fresh_world).2 in
     Download.successful_downloads t + Download.already_exists t
     + Download.failed_downloads t = 2 * size Examples.test_catalog).
Proof.
  split; [apply reverse_Permutation|].
  pose proof (download_all_pdfs_tallies Examples.test_catalog) as (_ & _ & _ & Hall).
  apply Hall. apply reverse_Permutation.
Defined.

End DownloadClaims.

(* ===================================================================== *)
(** ** The interactive driver *)
(* ===================================================================== *)

Section DriverClaims.
Import PyStr.

(** The search loop leaves the searcher alone and starts no download. *)
Lemma search_loop_frame (env : Driver.environment) (s : Driver.searcher) (n : nat) :
  ∀ stdin done,
    length stdin ≤ n →
    Driver.final (Driver.search_loop env s stdin done) = s
    ∧ Driver.download_phase_ran (Driver.search_loop env s stdin done)
      = existsb Driver.is_download done.
Proof.
  induction n as [|n IH]; intros stdin done Hlen;
    destruct stdin as [|line rest]; simpl in Hlen;
    try lia; try (split; reflexivity).
  cbn [Driver.search_loop].
  destruct (is_empty (strip line) || bool_decide (lower (strip line) = "quit"));
    [done|].
  case_bool_decide; [apply IH; lia|].
  destruct (Search.search_all_pdfs _ _ _ _) as [results|]; [|done].
  assert (Hdone : existsb Driver.is_download (done ++ [Driver.SearchAll (strip line) results])
                  = existsb Driver.is_download done).
  { rewrite existsb_app. simpl. by rewrite !orb_false_r. }
  destruct rest as [|answer rest']; [by rewrite <- Hdone|].
  case_bool_decide; [by rewrite <- Hdone|].
  rewrite <- Hdone. apply IH. simpl in Hlen. lia.
Qed.

(** C8, as amended.  [run] skips the download phase exactly when the answer
    to the download prompt, trimmed and lower-cased, is the one letter "n":
    then the files and the requests sent are the ones left by the catalog
    phase.  For every other answer, the empty one included, it calls
    [download_all_pdfs] on the catalog just built and goes on with the world
    that call leaves. *)
Theorem run_download_phase (env : Driver.environment) (s : Driver.searcher)
    (answer : string) (rest : list string) :
  let r := Driver.run env s (answer :: rest) in
  let catalog :=
    (Catalog.scrape_college_data (Driver.colleges_data s) (Driver.index_page env)).1 in
  let w1 := {| fs := fs (Driver.outside s);
               requests := index_url :: requests (Driver.outside s) |} in
  (Driver.download_phase_ran r = false ↔ lower (strip answer) = "n")
  ∧ (lower (strip answer) = "n" →
     Driver.final r = {| Driver.colleges_data := catalog; Driver.outside := w1 |})
  ∧ (lower (strip answer) ≠ "n" →
     Driver.final r
     = {| Driver.colleges_data := catalog;
          Driver.outside :=
            (Download.download_all_pdfs (Driver.http_get env) (Driver.schedule env)
               catalog w1).1 |})
  ∧ Driver.download_phase_ran (Driver.run env s ("" :: rest)) = true.
Proof.
  intros r catalog w1.
  assert (Hrun : ∀ line,
            Driver.run env s (line :: rest)
            = if bool_decide (lower (strip line) ≠ "n") then
                Driver.search_loop env
                  {| Driver.colleges_data := catalog;
                     Driver.outside :=
                       (Download.download_all_pdfs (Driver.http_get env)
                          (Driver.schedule env) catalog w1).1 |}
                  rest
                  [Driver.DownloadAll
                     (Download.download_all_pdfs (Driver.http_get env)
                        (Driver.schedule env) catalog w1).2]
              else Driver.search_loop env
                     {| Driver.colleges_data := catalog; Driver.outside := w1 |} rest []).
  { intros line. unfold Driver.run, catalog, w1.
    destruct (Catalog.scrape_college_data _ _) as [data ok]. simpl.
    destruct (Download.download_all_pdfs _ _ _ _) as [w2 summary]. done. }
  unfold r. rewrite !Hrun. split_and!.
  - case_bool_decide as Hn.
    + rewrite (proj2 (search_loop_frame env _ (length rest) rest _ (le_n _))).
      simpl. split; [done | intros Heq; by destruct Hn].
    + rewrite (proj2 (search_loop_frame env _ (length rest) rest _ (le_n _))).
      simpl. split; [intros _ | done].
      by destruct (decide (lower (strip answer) = "n")).
  - intros Hn. rewrite bool_decide_eq_false_2 by (intros H; by apply H).
    apply (search_loop_frame env _ (length rest) rest _ (le_n _)).
  - intros Hn. rewrite bool_decide_eq_true_2 by done.
    apply (search_loop_frame env _ (length rest) rest _ (le_n _)).
  - change (bool_decide (lower (strip "") ≠ "n")) with true. cbv iota.
    by rewrite (proj2 (search_loop_frame env _ (length rest) rest _ (le_n _))).
Qed.

Lemma run_download_phase_witness :
  lower (strip " N ") = "n"
  ∧ Driver.download_phase_ran
      (Driver.run Examples.test_env Examples.fresh_searcher [" N "; "quit"]) = false
  ∧ fs (Driver.outside
          (Driver.final
             (Driver.run Examples.test_env Examples.fresh_searcher [" N "; "quit"])))
    = fs Examples.fresh_world.
Proof.
  pose proof (run_download_phase Examples.test_env Examples.fresh_searcher " N " ["quit"])
    as (Hiff & Hskip & _).
  split; [reflexivity|]. split.
  - by apply Hiff.
  - by rewrite Hskip.
Defined.

(** C8 as the specification states it fails: the answer "no" does not skip
    the download phase. *)
Lemma run_download_phase_counterexample :
  ¬ (∀ (env : Driver.environment) (s : Driver.searcher) (answer : string)
       (rest : list string),
       Driver.download_phase_ran (Driver.run env s (answer :: rest))
       = negb (Spec.skips_download answer)).
Proof.
  intros H.
  specialize (H Examples.test_env Examples.fresh_searcher "no" ["quit"]).
  vm_compute in H. discriminate H.
Qed.

End DriverClaims.


(* ===================================================================== *)
(** ** Further properties of the matcher *)
(* ===================================================================== *)

Section MoreStrFacts.
Import PyStr.

Lemma rstrip_idem (s : string) : rstrip (rstrip s) = rstrip s.
Proof.
  induction s as [|c s IH]; [done|]. simpl.
  destruct (isspace c && is_empty (rstrip s)) eqn:E; [done|].
  simpl. by rewrite IH, E.
Qed.

Lemma lstrip_rstrip_lstrip (s : string) : lstrip (rstrip (lstrip s)) = rstrip (lstrip s).
Proof.
  induction s as [|c s IH]; [done|]. simpl.
  destruct (isspace c) eqn:E; [done|].
  simpl. rewrite E. simpl. by rewrite E.
Qed.

(** Stripping twice is stripping once. *)
Lemma strip_idem (s : string) : strip (strip s) = strip s.
Proof. unfold strip. by rewrite lstrip_rstrip_lstrip, rstrip_idem. Qed.

Lemma all_chars_impl (p q : ascii → bool) (s : string) :
  (∀ c, p c = true → q c = true) → all_chars p s = true → all_chars q s = true.
Proof.
  intros H. induction s as [|c s IH]; [done|]. simpl.
  rewrite !andb_true_iff. intros [Hc Hs]. split; [by apply H | by apply IH].
Qed.

Lemma has_char_all_chars (p : ascii → bool) (c : ascii) (s : string) :
  p c = false → all_chars p s = true → has_char c s = false.
Proof.
  intros Hc Hs. unfold has_char. apply negb_false_iff.
  apply (all_chars_impl p); [|done].
  intros x Hx. apply negb_true_iff, bool_decide_eq_false. intros ->. congruence.
Qed.

Lemma has_char_Substring (c : ascii) (n s : string) :
  Substring n s → has_char c s = false → has_char c n = false.
Proof.
  unfold has_char. intros Hsub Hs. apply negb_false_iff in Hs.
  apply negb_false_iff. by apply (all_chars_Substring _ n s).
Qed.

Lemma lstrip_Substring (s : string) : Substring (lstrip s) s.
Proof.
  induction s as [|c s IH]; [by exists "", ""|]. simpl.
  destruct (isspace c); [by apply Substring_cons|].
  exists "", "". by rewrite str_app_nil, str_app_nil_r.
Qed.

Lemma rstrip_startswith (s : string) : startswith (rstrip s) s = true.
Proof.
  induction s as [|c s IH]; [done|]. simpl.
  destruct (isspace c && is_empty (rstrip s)); [done|]. simpl.
  by rewrite bool_decide_eq_true_2, IH.
Qed.

(** What [strip] returns occurs in its argument. *)
Lemma strip_Substring (s : string) : Substring (strip s) s.
Proof.
  eapply Substring_trans; [|apply lstrip_Substring].
  destruct (proj1 (startswith_spec _ _) (rstrip_startswith (lstrip s))) as [post H].
  exists "", post. by rewrite str_app_nil.
Qed.

(** [str(n)] consists of decimal digits, at least one. *)
Lemma str_isdigit (n : N) : isdigit (str n) = true.
Proof.
  unfold str, isdigit.
  assert (H : ∀ d, all_chars isdigit_char (NilEmpty.string_of_uint d) = true)
    by (induction d; simpl; by rewrite ?IHd).
  destruct (N.to_uint n) as [|d|d|d|d|d|d|d|d|d|d] eqn:E; simpl; try done;
    by rewrite H.
Qed.

(** [str] is injective. *)
Lemma str_inj (n m : N) : str n = str m → n = m.
Proof.
  unfold str. intros H.
  assert (Hnil : ∀ k, N.to_uint k ≠ Decimal.Nil).
  { intros [|p]; [done | apply DecimalPos.Unsigned.to_uint_nonnil]. }
  assert (Hu : Some (N.to_uint n) = Some (N.to_uint m)).
  { rewrite <- !NilZero.usu by apply Hnil. by rewrite H. }
  injection Hu as Hu. by apply DecimalN.Unsigned.to_uint_inj.
Qed.

End MoreStrFacts.

Section MoreMatcher.
Import PyStr.

Lemma filter_sublist {A} (f : A → bool) (l : list A) :
  List.filter f l `sublist_of` l.
Proof.
  induction l as [|a l IH]; simpl; [done|].
  destruct (f a); [by apply sublist_skip | by apply sublist_cons].
Qed.

(** X1.  Whatever the file and the search string, [search_pdf] returns at
    most three context lines.  When it reports found, the file was read and
    its pages extracted, and the context is made, in their order, of lines
    of the extracted text (each page followed by a newline), stripped; each
    of these lines contains the search string case-insensitively and is not
    blank, so every context line is non-empty and free of leading and
    trailing white space.  When it reports not found, the context is empty
    or is the single line of an error report. *)
Theorem search_pdf_result_shape (pdf_reader : string → string + list string)
    (files : Os.file_system) (pdf_path search_name : string) :
  let r := Search.search_pdf pdf_reader files pdf_path search_name in
  length r.2 ≤ 3
  ∧ (r.1 = true →
     ∃ data pages lines,
       Os.read files pdf_path = inr data
       ∧ pdf_reader data = inr pages
       ∧ lines `sublist_of` split newline (Search.full_text pages)
       ∧ r.2 = strip <$> lines
       ∧ ∀ line, line ∈ lines →
                 contains (lower search_name) (lower line) = true
                 ∧ strip line ≠ "")
  ∧ (r.1 = true → ∀ c, c ∈ r.2 → c ≠ "" ∧ strip c = c)
  ∧ (r.1 = false →
     r.2 = [] ∨ ∃ e, r.2 = ["Error reading PDF: " +:+ e]).
Proof.
  intros r. unfold r, Search.search_pdf.
  destruct (Os.read files pdf_path) as [e|data] eqn:Hread;
    [split_and!; [simpl; lia | done | done | intros _; right; by exists e]|].
  destruct (pdf_reader data) as [e|pages] eqn:Hpages;
    [split_and!; [simpl; lia | done | done | intros _; right; by exists e]|].
  unfold Search.search_text.
  destruct (contains (lower search_name) (lower (Search.full_text pages)));
    [|split_and!; [simpl; lia | done | done | intros _; by left]].
  assert (Hmatch : ∀ line,
            line ∈ firstn 3 (List.filter (Search.line_matches search_name)
                             (split newline (Search.full_text pages))) →
            contains (lower search_name) (lower line) = true ∧ strip line ≠ "").
  { intros line Hl. apply (subseteq_take 3) in Hl.
    apply filter_elem in Hl as [_ Hm].
    apply andb_true_iff in Hm as [Hm1 Hm2]. split; [done|].
    intros Hempty. by rewrite Hempty in Hm2. }
  split_and!; [| | |done].
  - simpl. rewrite length_take. lia.
  - intros _. exists data, pages.
    exists (firstn 3 (List.filter (Search.line_matches search_name)
                      (split newline (Search.full_text pages)))).
    split_and!; [done | done | | | exact Hmatch].
    + etransitivity; [apply sublist_take | apply filter_sublist].
    + simpl. by rewrite fmap_take.
  - intros _ c Hc. simpl in Hc. rewrite <- fmap_take in Hc.
    apply list_elem_of_fmap in Hc as (line & -> & Hl).
    destruct (Hmatch line Hl) as [_ Hne]. split; [done | apply strip_idem].
Qed.

(** In a text, an occurrence of a search string without newline lies in
    one of the lines. *)
Lemma contains_text_line (text search_name : string) :
  has_char newline search_name = false →
  contains (lower search_name) (lower text) = true →
  ∃ line, line ∈ split newline text
          ∧ contains (lower search_name) (lower line) = true.
Proof.
  intros Hnl Hc. apply (contains_split newline) in Hc;
    [|by rewrite has_char_lower_newline].
  destruct Hc as (l & Hl & Hc). rewrite split_lower in Hl.
  apply list_elem_of_fmap in Hl as (line & -> & Hl). by exists line.
Qed.

Lemma search_text_found_nonempty (text search_name : string) :
  has_char newline search_name = false →
  all_chars isspace search_name = false →
  (Search.search_text text search_name).1 = true →
  (Search.search_text text search_name).2 ≠ [].
Proof.
  intros Hnl Hblank. rewrite search_text_found, search_text_context.
  intros Hc. rewrite Hc.
  destruct (contains_text_line text search_name Hnl Hc) as (line & Hl & Hm).
  assert (Hin : line ∈ List.filter (Search.line_matches search_name)
                         (split newline text)).
  { apply list_elem_of_In, filter_In. split; [by apply list_elem_of_In|].
    by rewrite line_matches_nonblank. }
  destruct (List.filter _ _) as [|a l]; [by apply elem_of_nil in Hin | done].
Qed.

Lemma search_pdf_found_nonempty (pdf_reader : string → string + list string)
    (files : Os.file_system) (pdf_path search_name : string) (ctx : list string) :
  has_char newline search_name = false →
  all_chars isspace search_name = false →
  Search.search_pdf pdf_reader files pdf_path search_name = (true, ctx) →
  ctx ≠ [] ∧ length ctx ≤ 3.
Proof.
  intros Hnl Hblank. unfold Search.search_pdf.
  destruct (Os.read files pdf_path) as [e|data]; [done|].
  destruct (pdf_reader data) as [e|pages]; [done|].
  intros H. split.
  - pose proof (search_text_found_nonempty (Search.full_text pages) search_name
                  Hnl Hblank) as Hne.
    rewrite H in Hne. by apply Hne.
  - pose proof (search_text_context (Search.full_text pages) search_name) as Hc.
    rewrite H in Hc. simpl in Hc. rewrite Hc.
    destruct (contains _ _); [rewrite length_take; lia | simpl; lia].
Qed.

(** X2.  For a search string without a newline and with at least one
    non-blank character (what [run] passes on), [search_pdf] reports found
    exactly when some line of the text contains the search string
    case-insensitively, and then the context is not empty. *)
Theorem search_pdf_found_has_context (pdf_reader : string → string + list string)
    (files : Os.file_system) (pdf_path data : string) (pages : list string)
    (search_name : string) :
  Os.read files pdf_path = inr data →
  pdf_reader data = inr pages →
  has_char newline search_name = false →
  all_chars isspace search_name = false →
  let r := Search.search_pdf pdf_reader files pdf_path search_name in
  (r.1 = true
   ↔ ∃ line, line ∈ split newline (Search.full_text pages)
             ∧ contains (lower search_name) (lower line) = true)
  ∧ (r.1 = true → r.2 ≠ []).
Proof.
  intros Hread Hpages Hnl Hblank r.
  assert (Hr : r = Search.search_text (Search.full_text pages) search_name)
    by (by apply search_pdf_extracted with data).
  rewrite Hr. split.
  - rewrite search_text_found. split; [by apply contains_text_line|].
    intros (line & Hl & Hc). by apply line_contains_text with line.
  - by apply search_text_found_nonempty.
Qed.

Lemma search_pdf_found_has_context_witness :
  let files := Examples.one_file "dse_pdfs/cap1/1002_4.pdf" Examples.john_jane in
  Os.read files "dse_pdfs/cap1/1002_4.pdf" = inr Examples.john_jane
  ∧ has_char newline "roe" = false
  ∧ all_chars isspace "roe" = false
  ∧ (Search.search_pdf Examples.plain_reader files "dse_pdfs/cap1/1002_4.pdf" "roe").2
    ≠ [].
Proof.
  intros files. split_and!; [reflexivity..|].
  apply (search_pdf_found_has_context Examples.plain_reader files
           "dse_pdfs/cap1/1002_4.pdf" Examples.john_jane [Examples.john_jane] "roe");
    reflexivity.
Defined.

End MoreMatcher.

(* ===================================================================== *)
(** ** Further properties of the search orchestrator *)
(* ===================================================================== *)


Section MoreOrchestratorClaims.
Import PyStr.

(** X3.  When [search_all_pdfs] returns, its result has the two keys "cap1"
    and "cap2" and no other.  Under each, it holds one entry for every file
    of the round's directory whose name ends in ".pdf" and in which
    [search_pdf] finds the name, in listing order, with the context
    [search_pdf] returned; a round whose directory is absent has no entry.
    So the files of the entries of a round are a sub-list of its listing. *)
Theorem search_all_pdfs_entries (pdf_reader : string → string + list string)
    (colleges_data : gmap string college) (files : Os.file_system)
    (search_name : string) (results : gmap string (list result_entry)) :
  Search.search_all_pdfs pdf_reader colleges_data files search_name = Some results →
  (∀ cap_round,
     cap_round ∈ ["cap1"; "cap2"] →
     results !! cap_round
     = Some (match Os.listdir files (pdf_dir +:+ "/" +:+ cap_round) with
             | None => []
             | Some names =>
                 omap (λ file,
                         match Search.search_pdf pdf_reader files
                                 (Os.path_join (pdf_dir +:+ "/" +:+ cap_round) file)
                                 search_name with
                         | (true, ctx) => Some (Search.entry_of colleges_data file ctx)
                         | (false, _) => None
                         end)
                      (List.filter (endswith ".pdf") names)
             end))
  ∧ (∀ k, k ∉ ["cap1"; "cap2"] → results !! k = None)
  ∧ (∀ cap_round entries names,
       results !! cap_round = Some entries →
       Os.listdir files (pdf_dir +:+ "/" +:+ cap_round) = Some names →
       pdf_file <$> entries `sublist_of` names).
Proof.
  intros Hres.
  destruct (search_all_pdfs_lookup _ _ _ _ _ Hres) as [Hrounds Hothers].
  split_and!; [done..|].
  intros cap_round entries names Hk Hlist.
  destruct (decide (cap_round ∈ ["cap1"; "cap2"])) as [Hin|Hout];
    [|by rewrite Hothers in Hk].
  rewrite (Hrounds _ Hin), Hlist in Hk. injection Hk as <-.
  transitivity (List.filter (endswith ".pdf") names).
  - generalize (List.filter (endswith ".pdf") names). intros l.
    induction l as [|file l IH]; simpl; [done|].
    destruct (Search.search_pdf _ _ _ _) as [[] ctx]; simpl.
    + by apply sublist_skip.
    + by apply sublist_cons.
  - clear. induction names as [|n names IH]; simpl; [done|].
    destruct (endswith ".pdf" n); [by apply sublist_skip | by apply sublist_cons].
Qed.

Lemma search_all_pdfs_entries_witness :
  let results : gmap string (list result_entry) :=
    {[ "cap1" := [ Search.entry_of Examples.test_catalog "1002_4.pdf" ["Jane Roe"];
                   Search.entry_of Examples.test_catalog "1004_4.pdf" ["Jane Roe"] ];
       "cap2" := [] ]} in
  Search.search_all_pdfs Examples.plain_reader Examples.test_catalog
    Examples.mixed_files "jane" = Some results
  ∧ pdf_file <$> default [] (results !! "cap1")
    `sublist_of` ["1002_4.pdf"; "1003_4.pdf"; "1004_4.pdf"].
Proof.
  intros results. split; [reflexivity|].
  destruct (search_all_pdfs_entries Examples.plain_reader Examples.test_catalog
              Examples.mixed_files "jane" results eq_refl) as (_ & _ & Hsub).
  by apply (Hsub "cap1").
Defined.

End MoreOrchestratorClaims.

(* ===================================================================== *)
(** ** Further properties of the download manager *)
(* ===================================================================== *)

Section MoreOsFacts.
Import PyStr.

Lemma has_char_app (c : ascii) (a b : string) :
  has_char c (a +:+ b) = has_char c a || has_char c b.
Proof.
  unfold has_char. rewrite all_chars_app. apply negb_andb.
Qed.

Lemma split_path_none (p : string) :
  has_char "/" p = false → Os.split_path p = None.
Proof.
  induction p as [|c p IH]; [done|].
  intros [Hc Hp]%has_char_cons. simpl. rewrite (IH Hp).
  by rewrite bool_decide_eq_false_2.
Qed.

(** A path built as directory, slash, file name is cut back into the two. *)
Lemma split_path_join (d b : string) :
  has_char "/" b = false → Os.split_path (d +:+ "/" +:+ b) = Some (d, b).
Proof.
  intros Hb. induction d as [|c d IH].
  - change ("" +:+ "/" +:+ b) with (String "/" b). simpl.
    by rewrite (split_path_none b Hb).
  - rewrite str_app_cons. simpl. by rewrite IH.
Qed.

Lemma local_path_split (institute_code cap_round : string) :
  has_char "/" institute_code = false →
  Os.split_path (Download.local_path institute_code cap_round)
  = Some (pdf_dir +:+ "/" +:+ cap_round, institute_code +:+ "_4.pdf").
Proof.
  intros Hc. unfold Download.local_path.
  replace (pdf_dir +:+ "/" +:+ cap_round +:+ "/" +:+ institute_code +:+ "_4.pdf")
    with ((pdf_dir +:+ "/" +:+ cap_round) +:+ "/" +:+ (institute_code +:+ "_4.pdf"))
    by (by rewrite !app_assoc_str).
  apply split_path_join. by rewrite has_char_app, Hc.
Qed.

Lemma add_entry_elem (b : string) (es : list string) :
  b ∈ Os.add_entry b es ∧ es ⊆ Os.add_entry b es.
Proof.
  unfold Os.add_entry. case_bool_decide; [done|]. split; set_solver.
Qed.

(** Writing a file at a path where nothing exists keeps every other file,
    and keeps every directory, possibly with one more entry. *)
Lemma write_frame (files files' : Os.file_system) (p content : string) :
  files !! p = None →
  Os.write files p content = Some files' →
  files' !! p = Some (Os.File content)
  ∧ (∀ q data, files !! q = Some (Os.File data) → files' !! q = Some (Os.File data))
  ∧ (∀ q es, files !! q = Some (Os.Dir es) →
             ∃ es', files' !! q = Some (Os.Dir es') ∧ es ⊆ es').
Proof.
  intros Hp. unfold Os.write. rewrite Hp.
  destruct (Os.split_path p) as [[d b]|].
  - destruct (files !! d) as [[es|]|] eqn:Hd; [|done..].
    intros [= <-]. split_and!.
    + apply lookup_insert_eq.
    + intros q data Hq.
      rewrite !lookup_insert_ne; [done | congruence | congruence].
    + intros q es' Hq. rewrite lookup_insert_ne by congruence.
      destruct (decide (d = q)) as [->|Hne].
      * rewrite lookup_insert_eq. rewrite Hd in Hq. injection Hq as <-.
        eexists. split; [done|]. apply add_entry_elem.
      * rewrite lookup_insert_ne by done. by exists es'.
  - intros [= <-]. split_and!.
    + apply lookup_insert_eq.
    + intros q data Hq. rewrite lookup_insert_ne; [done | congruence].
    + intros q es Hq. rewrite lookup_insert_ne by congruence. by exists es.
Qed.

End MoreOsFacts.

Section MoreDownloadFacts.
Import PyStr.
Variable http_get : string → Net.outcome.

(** One task either finds its file and changes nothing, or sends exactly
    one request, for its own URL, and is not counted as already existing. *)
Lemma download_pdf_cases (w : world) (institute_code cap_round : string) :
  let out := Download.download_pdf http_get w institute_code cap_round in
  (out = (w, Download.Returned (Download.local_path institute_code cap_round)
               true "Already exists")
   ∧ Os.exists_ (fs w) (Download.local_path institute_code cap_round) = true)
  ∨ (requests out.1 = Download.pdf_url institute_code cap_round :: requests w
     ∧ fs w !! Download.local_path institute_code cap_round = None
     ∧ (fs out.1 = fs w
        ∨ ∃ content, Os.write (fs w) (Download.local_path institute_code cap_round)
                       content = Some (fs out.1))
     ∧ ∀ t, Download.already_exists (Download.tally_step t out.2)
            = Download.already_exists t
            ∧ Download.successful_downloads (Download.tally_step t out.2)
              + Download.failed_downloads (Download.tally_step t out.2)
              = S (Download.successful_downloads t + Download.failed_downloads t)).
Proof.
  unfold Download.download_pdf, Os.exists_.
  destruct (fs w !! Download.local_path institute_code cap_round) eqn:E;
    [left; by split|]. right.
  destruct (http_get _) as [e|content_type content]; simpl.
  { split_and!; [done | done | by left | intros t; split; simpl; lia]. }
  destruct (contains "application/pdf" (default "" content_type)); simpl.
  - destruct (Os.write (fs w) _ content) as [fs'|] eqn:Hw; simpl.
    + split_and!; [done | done | right; by exists content
                   | intros t; split; simpl; lia].
    + split_and!; [done | done | by left | intros t; split; simpl; lia].
  - split_and!; [done | done | by left | intros t; split; simpl; lia].
Qed.

(** A task keeps every file that exists, and every directory. *)
Lemma download_pdf_keeps (w : world) (institute_code cap_round : string) :
  let out := Download.download_pdf http_get w institute_code cap_round in
  (∀ q data, fs w !! q = Some (Os.File data) → fs out.1 !! q = Some (Os.File data))
  ∧ (∀ q es, fs w !! q = Some (Os.Dir es) →
             ∃ es', fs out.1 !! q = Some (Os.Dir es') ∧ es ⊆ es').
Proof.
  pose proof (download_pdf_cases w institute_code cap_round) as Hcase.
  cbv zeta in *.
  destruct Hcase as [[-> _]|(_ & Hnew & [->|[content Hw]] & _)].
  - simpl. split; [done|]. intros q es Hq. by exists es.
  - split; [done|]. intros q es Hq. by exists es.
  - by destruct (write_frame _ _ _ _ Hnew Hw) as (_ & ? & ?).
Qed.

Lemma run_tasks_keeps (order : list (string * string)) (w : world) :
  let out := Download.run_tasks http_get w order in
  (∀ q data, fs w !! q = Some (Os.File data) → fs out.1 !! q = Some (Os.File data))
  ∧ (∀ q es, fs w !! q = Some (Os.Dir es) →
             ∃ es', fs out.1 !! q = Some (Os.Dir es') ∧ es ⊆ es').
Proof.
  revert w. induction order as [|[c cap] order IH]; intros w; simpl.
  - split; [done|]. intros q es Hq. by exists es.
  - pose proof (download_pdf_keeps w c cap) as [Hf Hd].
    destruct (Download.download_pdf http_get w c cap) as [w1 r]. simpl in *.
    specialize (IH w1). destruct (Download.run_tasks http_get w1 order) as [w2 rs].
    simpl in *. destruct IH as [IHf IHd]. split.
    + intros q data Hq. by apply IHf, Hf.
    + intros q es Hq. destruct (Hd q es Hq) as (es1 & Hq1 & Hsub1).
      destruct (IHd q es1 Hq1) as (es2 & Hq2 & Hsub2).
      exists es2. split; [done | set_solver].
Qed.

(** The requests a run of tasks sends: one per task not counted as already
    existing, each for the URL of one of the tasks. *)
Lemma run_tasks_requests (order : list (string * string)) (w : world)
    (t : Download.tallies) :
  let out := Download.run_tasks http_get w order in
  let t' := fold_left Download.tally_step out.2 t in
  ∃ new,
    requests out.1 = new ++ requests w
    ∧ (∀ url, url ∈ new →
              ∃ task, task ∈ order ∧ url = Download.pdf_url task.1 task.2)
    ∧ Download.successful_downloads t' + Download.failed_downloads t'
      = Download.successful_downloads t + Download.failed_downloads t + length new.
Proof.
  revert w t. induction order as [|[c cap] order IH]; intros w t; simpl.
  - exists []. split_and!;
      [done | intros url Hu; by apply elem_of_nil in Hu | simpl; lia].
  - pose proof (download_pdf_cases w c cap) as Hcase.
    destruct (Download.download_pdf http_get w c cap) as [w1 r]. simpl in Hcase.
    specialize (IH w1 (Download.tally_step t r)).
    destruct (Download.run_tasks http_get w1 order) as [w2 rs]. simpl in *.
    destruct IH as (new & Hreq & Hurls & Hcount).
    destruct Hcase as [[[= -> ->] _]|(Hr1 & _ & _ & Ht)].
    + exists new. split_and!; [done | |].
      * intros url Hu. destruct (Hurls url Hu) as (task & Htask & ->).
        exists task. split; [by right | done].
      * rewrite Hcount. simpl. lia.
    + exists (new ++ [Download.pdf_url c cap]). split_and!.
      * rewrite Hreq, Hr1. by rewrite <- app_assoc.
      * intros url [Hu|Hu%list_elem_of_singleton]%elem_of_app.
        -- destruct (Hurls url Hu) as (task & Htask & ->).
           exists task. split; [by right | done].
        -- exists (c, cap). split; [by left | done].
      * rewrite Hcount, length_app. destruct (Ht t) as [_ Hs]. simpl. lia.
Qed.

End MoreDownloadFacts.

Section MoreDownloadClaims.
Import PyStr.

Lemma download_pdf_downloaded (http_get : string → Net.outcome) (w : world)
    (institute_code cap_round : string) (entries : list string)
    (content_type : option string) (content : string) :
  has_char "/" institute_code = false →
  fs w !! Download.local_path institute_code cap_round = None →
  fs w !! (pdf_dir +:+ "/" +:+ cap_round) = Some (Os.Dir entries) →
  http_get (Download.pdf_url institute_code cap_round)
  = Net.Response content_type content →
  contains "application/pdf" (default "" content_type) = true →
  Download.download_pdf http_get w institute_code cap_round
  = ({| fs := <[Download.local_path institute_code cap_round := Os.File content]>
                (<[pdf_dir +:+ "/" +:+ cap_round :=
                     Os.Dir (Os.add_entry (institute_code +:+ "_4.pdf") entries)]>
                   (fs w));
        requests := Download.pdf_url institute_code cap_round :: requests w |},
     Download.Returned (Download.local_path institute_code cap_round)
       true "Downloaded").
Proof.
  intros Hslash Hnew Hdir Hresp Hct.
  unfold Download.download_pdf, Os.exists_, Os.write. cbn [fs requests].
  by rewrite Hnew, Hresp, Hct, local_path_split, Hdir.
Qed.

(** X4.  For a code without a slash whose file is not there yet, in a round
    directory that exists, and a response declaring a PDF: [download_pdf]
    sends that one request, reports "Downloaded", leaves the body readable at
    the local path and the file name listed in the round directory, touches
    no other path, and a second call for the same task answers "Already
    exists" without a request. *)
Theorem download_pdf_fetch_once (http_get : string → Net.outcome) (w : world)
    (institute_code cap_round : string) (entries : list string)
    (content_type : option string) (content : string) :
  has_char "/" institute_code = false →
  fs w !! Download.local_path institute_code cap_round = None →
  fs w !! (pdf_dir +:+ "/" +:+ cap_round) = Some (Os.Dir entries) →
  http_get (Download.pdf_url institute_code cap_round)
  = Net.Response content_type content →
  contains "application/pdf" (default "" content_type) = true →
  let out := Download.download_pdf http_get w institute_code cap_round in
  out.2 = Download.Returned (Download.local_path institute_code cap_round)
            true "Downloaded"
  ∧ requests out.1 = Download.pdf_url institute_code cap_round :: requests w
  ∧ Os.read (fs out.1) (Download.local_path institute_code cap_round) = inr content
  ∧ (∃ entries',
       Os.listdir (fs out.1) (pdf_dir +:+ "/" +:+ cap_round) = Some entries'
       ∧ institute_code +:+ "_4.pdf" ∈ entries'
       ∧ entries ⊆ entries')
  ∧ (∀ q, q ≠ Download.local_path institute_code cap_round →
          q ≠ pdf_dir +:+ "/" +:+ cap_round →
          fs out.1 !! q = fs w !! q)
  ∧ Download.download_pdf http_get out.1 institute_code cap_round
    = (out.1, Download.Returned (Download.local_path institute_code cap_round)
                true "Already exists").
Proof.
  intros Hslash Hnew Hdir Hresp Hct out.
  assert (Hne : Download.local_path institute_code cap_round
                ≠ pdf_dir +:+ "/" +:+ cap_round) by congruence.
  assert (Hout := download_pdf_downloaded http_get w institute_code cap_round
                    entries content_type content Hslash Hnew Hdir Hresp Hct).
  fold out in Hout.
  rewrite Hout. simpl. split_and!; [done | done | | | |].
  - unfold Os.read. by rewrite lookup_insert_eq.
  - exists (Os.add_entry (institute_code +:+ "_4.pdf") entries).
    unfold Os.listdir. rewrite lookup_insert_ne, lookup_insert_eq by done.
    split; [done|]. apply add_entry_elem.
  - intros q Hq1 Hq2. by rewrite !lookup_insert_ne.
  - unfold Download.download_pdf, Os.exists_. simpl. by rewrite lookup_insert_eq.
Qed.

Lemma download_pdf_fetch_once_witness :
  let out := Download.download_pdf Examples.server Examples.fresh_world "1002" "cap1" in
  has_char "/" "1002" = false
  ∧ out.2 = Download.Returned "dse_pdfs/cap1/1002_4.pdf" true "Downloaded"
  ∧ Os.read (fs out.1) "dse_pdfs/cap1/1002_4.pdf" = inr Examples.john_jane
  ∧ Download.download_pdf Examples.server out.1 "1002" "cap1"
    = (out.1, Download.Returned "dse_pdfs/cap1/1002_4.pdf" true "Already exists").
Proof.
  intros out. split; [reflexivity|].
  destruct (download_pdf_fetch_once Examples.server Examples.fresh_world "1002" "cap1"
              [] (Some "application/pdf; charset=binary") Examples.john_jane
              eq_refl eq_refl eq_refl eq_refl eq_refl)
    as (H1 & _ & H3 & _ & _ & H6).
  by split_and!.
Defined.

(** X5.  The download phase never changes or removes a file that exists:
    whatever the server answers and in whatever order the tasks complete,
    every file present before [download_all_pdfs] is present afterwards with
    the same bytes, and every directory is still a directory listing at
    least the names it listed. *)
Theorem download_all_pdfs_keeps_files (http_get : string → Net.outcome)
    (schedule : list (string * string) → list (string * string))
    (colleges_data : gmap string college) (w : world) :
  let w' := (Download.download_all_pdfs http_get schedule colleges_data w).1 in
  (∀ q data, fs w !! q = Some (Os.File data) → fs w' !! q = Some (Os.File data))
  ∧ (∀ q es, fs w !! q = Some (Os.Dir es) →
             ∃ es', fs w' !! q = Some (Os.Dir es') ∧ es ⊆ es').
Proof.
  unfold Download.download_all_pdfs.
  pose proof (run_tasks_keeps http_get
                (schedule (Download.download_tasks colleges_data)) w) as H.
  by destruct (Download.run_tasks http_get w _) as [w' rs].
Qed.

(** X6.  When the file of every scheduled task is already there,
    [download_all_pdfs] sends no request, leaves the world as it is, and
    counts every task as already existing. *)
Theorem download_all_pdfs_offline (http_get : string → Net.outcome)
    (schedule : list (string * string) → list (string * string))
    (colleges_data : gmap string college) (w : world) :
  (∀ task, task ∈ schedule (Download.download_tasks colleges_data) →
           is_Some (fs w !! Download.local_path task.1 task.2)) →
  Download.download_all_pdfs http_get schedule colleges_data w
  = (w, {| Download.successful_downloads := 0;
           Download.already_exists :=
             length (schedule (Download.download_tasks colleges_data));
           Download.failed_downloads := 0 |}).
Proof.
  unfold Download.download_all_pdfs, Download.tally.
  generalize (schedule (Download.download_tasks colleges_data)). intros order Hall.
  assert (H : ∀ t,
            (let '(w', results) := Download.run_tasks http_get w order in
             (w', fold_left Download.tally_step results t))
            = (w, {| Download.successful_downloads := Download.successful_downloads t;
                     Download.already_exists := Download.already_exists t + length order;
                     Download.failed_downloads := Download.failed_downloads t |})).
  { induction order as [|[c cap] order IH]; intros t; simpl.
    - destruct t. simpl. do 2 f_equal. lia.
    - destruct (Hall (c, cap) ltac:(left)) as [node Hnode]. simpl in Hnode.
      unfold Download.download_pdf, Os.exists_. rewrite Hnode.
      specialize (IH (λ task Ht, Hall task ltac:(by right))
                     (Download.tally_step t
                        (Download.Returned (Download.local_path c cap) true
                           "Already exists"))).
      destruct (Download.run_tasks http_get w order) as [w' rs].
      cbn [fold_left]. rewrite IH. simpl. do 2 f_equal. lia. }
  apply (H Download.no_tallies).
Qed.

Lemma download_all_pdfs_offline_witness :
  let w := {| fs := <["dse_pdfs/cap2/1002_4.pdf" := Os.File ""]>
                      (Examples.test_files Examples.john_jane);
              requests := [] |} in
  Download.download_all_pdfs Examples.server reverse Examples.test_catalog w
  = (w, {| Download.successful_downloads := 0;
           Download.already_exists :=
             length (reverse (Download.download_tasks Examples.test_catalog));
           Download.failed_downloads := 0 |}).
Proof.
  intros w.
  apply (download_all_pdfs_offline Examples.server reverse Examples.test_catalog w).
  intros task Htask.
  assert (Htasks : reverse (Download.download_tasks Examples.test_catalog)
                   = [("1002", "cap2"); ("1002", "cap1")]) by (vm_compute; reflexivity).
  rewrite Htasks in Htask. apply list_elem_of_In in Htask.
  destruct Htask as [<-|[<-|[]]]; vm_compute; by eexists.
Defined.

(** X7.  The download phase sends one request for every task it counts as
    downloaded or failed and none for a task counted as already existing;
    each request goes to the URL of one of the scheduled tasks, and the
    requests sent before are kept. *)
Theorem download_all_pdfs_requests (http_get : string → Net.outcome)
    (schedule : list (string * string) → list (string * string))
    (colleges_data : gmap string college) (w : world) :
  let out := Download.download_all_pdfs http_get schedule colleges_data w in
  ∃ new,
    requests out.1 = new ++ requests w
    ∧ length new
      = Download.successful_downloads out.2 + Download.failed_downloads out.2
    ∧ ∀ url, url ∈ new →
             ∃ task, task ∈ schedule (Download.download_tasks colleges_data)
                     ∧ url = base_url +:+ "admin/allotment/" +:+ task.2 +:+ "/"
                                 +:+ task.1 +:+ "_4.pdf".
Proof.
  unfold Download.download_all_pdfs, Download.tally.
  pose proof (run_tasks_requests http_get
                (schedule (Download.download_tasks colleges_data)) w
                Download.no_tallies) as H.
  destruct (Download.run_tasks http_get w _) as [w' rs]. simpl in *.
  destruct H as (new & Hreq & Hurls & Hcount).
  exists new. split_and!; [done | lia | done].
Qed.

End MoreDownloadClaims.

(* ===================================================================== *)
(** ** Further properties of the catalog builder *)
(* ===================================================================== *)

Section MoreCatalog.
Import PyStr.

Lemma isdigit_no_char (c : ascii) (k : string) :
  isdigit_char c = false → isdigit k = true → has_char c k = false.
Proof.
  intros Hc [_ Hk]%andb_true_iff. by apply (has_char_all_chars isdigit_char).
Qed.

Lemma row_entry_key (r : Catalog.row) (k : string) (v : college) :
  Spec.row_entry r = Some (k, v) → isdigit k = true ∧ code v = k.
Proof.
  unfold Spec.row_entry. destruct r as [|c0 [|c1 [|c2 rest]]]; try done.
  destruct (isdigit (Catalog.get_text c1)) eqn:E; [|done].
  by intros [= <- <-].
Qed.

(** X8.  [scrape_college_data] keeps the catalog well keyed: if every key
    is a digit string and every record carries its key as code (as in the
    empty catalog of a new searcher), the same holds afterwards, whether the
    page was scraped or the fallback was used; such keys contain neither a
    slash nor an underscore. *)
Theorem scrape_college_data_keys (data0 : gmap string college)
    (page : Catalog.fetched) :
  (∀ k v, data0 !! k = Some v → isdigit k = true ∧ code v = k) →
  ∀ k v,
    (Catalog.scrape_college_data data0 page).1 !! k = Some v →
    isdigit k = true ∧ code v = k
    ∧ has_char "/" k = false ∧ has_char underscore k = false.
Proof.
  intros H0 k v Hk.
  assert (Hkey : isdigit k = true ∧ code v = k).
  { destruct page as [e|rows]; simpl in Hk.
    - rewrite generate_fallback_codes_concat in Hk.
      apply fallback_lookup in Hk as [(n & _ & -> & ->)|[Hk _]]; [|by apply H0].
      split; [apply str_isdigit | done].
    - revert data0 H0 Hk. generalize (tail rows). clear rows.
      intros rows. induction rows as [|r rows IH]; intros data0 H0 Hk; simpl in Hk.
      + by apply H0.
      + apply (IH (Catalog.scrape_row data0 r)); [|done].
        intros k' v'. rewrite scrape_row_entry.
        destruct (Spec.row_entry r) as [[kr vr]|] eqn:Er; [|by apply H0].
        destruct (decide (kr = k')) as [->|Hne].
        * rewrite lookup_insert_eq. intros [= <-]. by apply row_entry_key with r.
        * rewrite lookup_insert_ne by done. by apply H0. }
  destruct Hkey as [Hd Hc]. split_and!; [done | done | |];
    by apply (isdigit_no_char _ k).
Qed.

Lemma scrape_college_data_keys_witness :
  (Catalog.scrape_college_data ∅ (Catalog.FetchedRows Examples.test_table)).1 !! "1002"
  = Some {| sr_no := "3"; name := "New Name"; code := "1002" |}
  ∧ isdigit "1002" = true
  ∧ has_char "/" "1002" = false
  ∧ has_char underscore "1002" = false.
Proof.
  assert (Hk : (Catalog.scrape_college_data ∅
                  (Catalog.FetchedRows Examples.test_table)).1 !! "1002"
               = Some {| sr_no := "3"; name := "New Name"; code := "1002" |})
    by reflexivity.
  split; [exact Hk|].
  destruct (scrape_college_data_keys ∅ (Catalog.FetchedRows Examples.test_table))
    with (k := "1002") (v := {| sr_no := "3"; name := "New Name"; code := "1002" |})
    as (Hd & _ & Hs & Hu); [|exact Hk|by split_and!].
  intros k v H. by rewrite lookup_empty in H.
Defined.

(** X9.  [generate_fallback_codes] overwrites the entries of the codes of
    its ranges and leaves every other entry as it was; applying it a second
    time changes nothing; and two different numbers never share an entry. *)
Theorem generate_fallback_codes_merge (data0 : gmap string college) :
  (∀ k, (∀ n, Spec.in_fallback_ranges n → str n ≠ k) →
        Catalog.generate_fallback_codes data0 !! k = data0 !! k)
  ∧ (∀ n, Spec.in_fallback_ranges n →
          Catalog.generate_fallback_codes data0 !! str n
          = Some (Catalog.fallback_entry n))
  ∧ Catalog.generate_fallback_codes (Catalog.generate_fallback_codes data0)
    = Catalog.generate_fallback_codes data0
  ∧ (∀ n m, str n = str m → n = m).
Proof.
  assert (Hother : ∀ d k, (∀ n, Spec.in_fallback_ranges n → str n ≠ k) →
                          Catalog.generate_fallback_codes d !! k = d !! k).
  { intros d k Hk. rewrite generate_fallback_codes_concat.
    apply option_eq. intros v. rewrite fallback_lookup. split.
    - intros [(n & Hn%elem_of_code_ranges & -> & _)|[H _]]; [|done].
      by destruct (Hk n Hn).
    - intros H. right. split; [done|].
      intros n Hn%elem_of_code_ranges. by apply Hk. }
  assert (Hcode : ∀ d n, Spec.in_fallback_ranges n →
                         Catalog.generate_fallback_codes d !! str n
                         = Some (Catalog.fallback_entry n)).
  { intros d n Hn. rewrite generate_fallback_codes_concat.
    apply fallback_lookup. left. exists n.
    split; [by apply elem_of_code_ranges | done]. }
  split_and!; [apply Hother | apply Hcode | | apply str_inj].
  apply map_eq. intros k.
  destruct (decide (Exists (λ n, str n = k) (concat Catalog.code_ranges)))
    as [(n & Hn%elem_of_code_ranges & <-)%Exists_exists|Hnone].
  - by rewrite !Hcode.
  - apply Hother. intros n Hn Hk. apply Hnone, Exists_exists.
    exists n. split; [by apply elem_of_code_ranges | done].
Qed.

End MoreCatalog.

(* ===================================================================== *)
(** ** From the download to the search *)
(* ===================================================================== *)

Section DownloadThenSearch.
Import PyStr.

Lemma endswith_app (suf a b : string) :
  endswith suf b = true → endswith suf (a +:+ b) = true.
Proof.
  intros Hb. induction a as [|c a IH]; [done|].
  rewrite str_app_cons. simpl. rewrite IH. apply orb_true_r.
Qed.

(** The code is read back from the file name built from it. *)
Lemma split_hd_app (sep : ascii) (c rest : string) :
  has_char sep c = false → hd "" (split sep (c +:+ String sep rest)) = c.
Proof.
  induction c as [|x c IH]; intros Hc.
  - rewrite str_app_nil. by rewrite split_cons_eq.
  - apply has_char_cons in Hc as [Hx Hc].
    rewrite str_app_cons, split_cons_ne by done. simpl. by rewrite IH.
Qed.

Lemma path_join_local (institute_code cap_round : string) :
  cap_round ∈ ["cap1"; "cap2"] →
  has_char "/" institute_code = false →
  Os.path_join (pdf_dir +:+ "/" +:+ cap_round) (institute_code +:+ "_4.pdf")
  = Download.local_path institute_code cap_round.
Proof.
  intros Hcap Hc. unfold Os.path_join.
  assert (Hs : startswith "/" (institute_code +:+ "_4.pdf") = false).
  { destruct institute_code as [|x c]; [done|].
    apply has_char_cons in Hc as [Hx _]. rewrite str_app_cons. simpl.
    rewrite bool_decide_eq_false_2; [done | congruence]. }
  rewrite Hs. unfold Download.local_path.
  apply list_elem_of_In in Hcap. destruct Hcap as [<-|[<-|[]]].
  - change (is_empty (pdf_dir +:+ "/" +:+ "cap1")
            || endswith "/" (pdf_dir +:+ "/" +:+ "cap1")) with false.
    cbv iota. by rewrite !app_assoc_str.
  - change (is_empty (pdf_dir +:+ "/" +:+ "cap2")
            || endswith "/" (pdf_dir +:+ "/" +:+ "cap2")) with false.
    cbv iota. by rewrite !app_assoc_str.
Qed.

(** X10.  A PDF downloaded for a numeric code is seen by the search under
    that code: after [download_pdf] has stored the body for a code and a
    round, whenever the name is found in the extracted text,
    [search_all_pdfs] on the resulting files lists, under that round, an
    entry for the file [<code>_4.pdf] with the code as institution code, the
    catalog's name for it, and the context lines of the matcher. *)
Theorem downloaded_pdf_is_searched (http_get : string → Net.outcome)
    (pdf_reader : string → string + list string)
    (colleges_data : gmap string college) (w : world)
    (institute_code cap_round : string) (entries : list string)
    (content_type : option string) (content : string) (pages : list string)
    (search_name : string) (results : gmap string (list result_entry)) :
  cap_round ∈ ["cap1"; "cap2"] →
  isdigit institute_code = true →
  fs w !! Download.local_path institute_code cap_round = None →
  fs w !! (pdf_dir +:+ "/" +:+ cap_round) = Some (Os.Dir entries) →
  http_get (Download.pdf_url institute_code cap_round)
  = Net.Response content_type content →
  contains "application/pdf" (default "" content_type) = true →
  pdf_reader content = inr pages →
  (Search.search_text (Search.full_text pages) search_name).1 = true →
  Search.search_all_pdfs pdf_reader colleges_data
    (fs (Download.download_pdf http_get w institute_code cap_round).1) search_name
  = Some results →
  ∃ round_entries,
    results !! cap_round = Some round_entries
    ∧ {| institute_code := institute_code;
         college_name := Search.resolve_name colleges_data institute_code;
         pdf_file := institute_code +:+ "_4.pdf";
         context := (Search.search_text (Search.full_text pages) search_name).2 |}
      ∈ round_entries.
Proof.
  intros Hcap Hdigit Hnew Hdir Hresp Hct Hpages Hfound Hres.
  assert (Hslash : has_char "/" institute_code = false)
    by (by apply (isdigit_no_char _ institute_code)).
  assert (Hunder : has_char underscore institute_code = false)
    by (by apply (isdigit_no_char _ institute_code)).
  rewrite (download_pdf_downloaded http_get w institute_code cap_round entries
             content_type content) in Hres by done.
  cbn [fst fs] in Hres.
  set (files' := <[Download.local_path institute_code cap_round := Os.File content]>
                   (<[pdf_dir +:+ "/" +:+ cap_round :=
                        Os.Dir (Os.add_entry (institute_code +:+ "_4.pdf") entries)]>
                      (fs w))) in *.
  assert (Hne : Download.local_path institute_code cap_round
                ≠ pdf_dir +:+ "/" +:+ cap_round) by congruence.
  destruct (search_all_pdfs_lookup _ _ _ _ _ Hres) as [Hrounds _].
  rewrite (Hrounds cap_round Hcap). eexists. split; [done|].
  unfold Os.listdir, files'. rewrite lookup_insert_ne, lookup_insert_eq by done.
  fold files'. apply list_elem_of_omap.
  exists (institute_code +:+ "_4.pdf"). split.
  - apply list_elem_of_In, filter_In. split.
    + apply list_elem_of_In.
      by destruct (add_entry_elem (institute_code +:+ "_4.pdf") entries).
    + by apply endswith_app.
  - rewrite path_join_local by done.
    unfold Search.search_pdf, Os.read, files'. rewrite lookup_insert_eq, Hpages.
    destruct (Search.search_text (Search.full_text pages) search_name)
      as [found ctx]. simpl in Hfound. subst found.
    unfold Search.entry_of.
    change (institute_code +:+ "_4.pdf")
      with (institute_code +:+ String underscore "4.pdf").
    by rewrite split_hd_app.
Qed.

Lemma downloaded_pdf_is_searched_witness :
  let w' := (Download.download_pdf Examples.server Examples.fresh_world "1002" "cap1").1 in
  isdigit "1002" = true
  ∧ ∃ results round_entries,
      Search.search_all_pdfs Examples.plain_reader Examples.test_catalog (fs w') "roe"
      = Some results
      ∧ results !! "cap1" = Some round_entries
      ∧ {| institute_code := "1002"; college_name := "Test College";
           pdf_file := "1002_4.pdf"; context := ["Jane Roe"] |} ∈ round_entries.
Proof.
  intros w'. split; [reflexivity|]. eexists.
  assert (Hres : Search.search_all_pdfs Examples.plain_reader Examples.test_catalog
                   (fs w') "roe"
                 = Some {[ "cap1" := [ {| institute_code := "1002";
                                          college_name := "Test College";
                                          pdf_file := "1002_4.pdf";
                                          context := ["Jane Roe"] |} ];
                           "cap2" := [] ]}) by reflexivity.
  destruct (downloaded_pdf_is_searched Examples.server Examples.plain_reader
              Examples.test_catalog Examples.fresh_world "1002" "cap1" []
              (Some "application/pdf; charset=binary") Examples.john_jane
              [Examples.john_jane] "roe" _
              ltac:(set_solver) eq_refl eq_refl eq_refl eq_refl eq_refl eq_refl eq_refl
              Hres) as (round_entries & Hk & He).
  exists round_entries. by split_and!.
Defined.

End DownloadThenSearch.

(* ===================================================================== *)
(** ** Further properties of the driver *)
(* ===================================================================== *)

Section MoreInit.
Import PyStr.

(** [os.makedirs(p, exist_ok=True)]: what holds after it returned, and why
    it raised otherwise. *)
Lemma makedirs_cases (files : Os.file_system) (p : string) :
  match Os.makedirs files p with
  | Some files' =>
      (∃ es, files' !! p = Some (Os.Dir es))
      ∧ (∀ q data, files' !! q = Some (Os.File data) ↔ files !! q = Some (Os.File data))
      ∧ (∀ q es, files !! q = Some (Os.Dir es) →
                 ∃ es', files' !! q = Some (Os.Dir es') ∧ es ⊆ es')
      ∧ (∀ q, is_Some (files !! q) → is_Some (files' !! q))
  | None =>
      (∃ data, files !! p = Some (Os.File data))
      ∨ (files !! p = None
         ∧ ∃ d b, Os.split_path p = Some (d, b) ∧ ∀ es, files !! d ≠ Some (Os.Dir es))
  end.
Proof.
  unfold Os.makedirs.
  destruct (files !! p) as [[es|data]|] eqn:Hp.
  - split_and!; [by exists es | done | intros q es' Hq; by exists es' | done].
  - left. by exists data.
  - destruct (Os.split_path p) as [[d b]|] eqn:Hsp.
    + destruct (files !! d) as [[es|data]|] eqn:Hd.
      * assert (Hpd : p ≠ d) by congruence. split_and!.
        -- exists []. apply lookup_insert_eq.
        -- intros q data. destruct (decide (p = q)) as [<-|Hq].
           { rewrite lookup_insert_eq, Hp. split; intros [=]. }
           rewrite lookup_insert_ne by done.
           destruct (decide (d = q)) as [<-|Hq'].
           { rewrite lookup_insert_eq, Hd. split; intros [=]. }
           by rewrite lookup_insert_ne.
        -- intros q es' Hq. rewrite lookup_insert_ne by congruence.
           destruct (decide (d = q)) as [<-|Hq'].
           ++ rewrite lookup_insert_eq. rewrite Hd in Hq. injection Hq as <-.
              eexists. split; [done|]. apply add_entry_elem.
           ++ rewrite lookup_insert_ne by done. by exists es'.
        -- intros q Hq. destruct (decide (p = q)) as [<-|Hq1];
             [by rewrite lookup_insert_eq|].
           rewrite lookup_insert_ne by done.
           destruct (decide (d = q)) as [<-|Hq2]; [by rewrite lookup_insert_eq|].
           by rewrite lookup_insert_ne.
      * right. split; [done|]. exists d, b. split; [done|]. congruence.
      * right. split; [done|]. exists d, b. split; [done|]. congruence.
    + split_and!.
      * exists []. apply lookup_insert_eq.
      * intros q data. destruct (decide (p = q)) as [<-|Hq].
        { rewrite lookup_insert_eq, Hp. split; intros [=]. }
        by rewrite lookup_insert_ne.
      * intros q es' Hq. rewrite lookup_insert_ne by congruence. by exists es'.
      * intros q Hq. destruct (decide (p = q)) as [<-|Hq1];
          [by rewrite lookup_insert_eq|]. by rewrite lookup_insert_ne.
Qed.

Lemma makedirs_existing (files : Os.file_system) (p : string) (es : list string) :
  files !! p = Some (Os.Dir es) → Os.makedirs files p = Some files.
Proof. intros H. unfold Os.makedirs. by rewrite H. Qed.

End MoreInit.

Section MoreInitClaims.
Import PyStr.

(** X11.  [__init__] succeeds exactly when none of [dse_pdfs],
    [dse_pdfs/cap1] and [dse_pdfs/cap2] is a plain file.  When it succeeds
    the catalog is empty, nothing was sent, the three paths are directories,
    the plain files are exactly those there before, nothing that existed is
    gone, running it again changes nothing, and a search on the resulting
    files always returns. *)
Theorem init_directories (w : world) :
  (is_Some (Driver.init w)
   ↔ ∀ d data, d ∈ [pdf_dir; pdf_dir +:+ "/cap1"; pdf_dir +:+ "/cap2"] →
               fs w !! d ≠ Some (Os.File data))
  ∧ ∀ s, Driver.init w = Some s →
         Driver.colleges_data s = ∅
         ∧ requests (Driver.outside s) = requests w
         ∧ (∀ d, d ∈ [pdf_dir; pdf_dir +:+ "/cap1"; pdf_dir +:+ "/cap2"] →
                 ∃ es, fs (Driver.outside s) !! d = Some (Os.Dir es))
         ∧ (∀ q data, fs (Driver.outside s) !! q = Some (Os.File data)
                      ↔ fs w !! q = Some (Os.File data))
         ∧ (∀ q, is_Some (fs w !! q) → is_Some (fs (Driver.outside s) !! q))
         ∧ Driver.init (Driver.outside s) = Some s
         ∧ (∀ pdf_reader colleges_data search_name,
              is_Some (Search.search_all_pdfs pdf_reader colleges_data
                         (fs (Driver.outside s)) search_name)).
Proof.
  assert (Hlist : ∀ d : string,
            d ∈ [pdf_dir; pdf_dir +:+ "/cap1"; pdf_dir +:+ "/cap2"]
            ↔ d = pdf_dir ∨ d = pdf_dir +:+ "/cap1" ∨ d = pdf_dir +:+ "/cap2").
  { intros d. rewrite !elem_of_cons, elem_of_nil. tauto. }
  unfold Driver.init.
  pose proof (makedirs_cases (fs w) pdf_dir) as H1.
  destruct (Os.makedirs (fs w) pdf_dir) as [fs1|] eqn:E1; simpl.
  2:{ destruct H1 as [[data Hd]|(_ & d & b & Hsp & _)]; [|done].
      split; [|done]. split; [by intros [? ?]|].
      intros H. destruct (H pdf_dir data); [apply Hlist; tauto | done]. }
  destruct H1 as ([es1 Hd1] & Hf1 & Hk1 & Hx1).
  pose proof (makedirs_cases fs1 (pdf_dir +:+ "/cap1")) as H2.
  destruct (Os.makedirs fs1 (pdf_dir +:+ "/cap1")) as [fs2|] eqn:E2; simpl.
  2:{ destruct H2 as [[data Hd]|(_ & d & b & Hsp & Hno)].
      - split; [|done]. split; [by intros [? ?]|].
        intros H. destruct (H (pdf_dir +:+ "/cap1") data);
          [apply Hlist; tauto | by apply Hf1].
      - injection Hsp as <- <-. by destruct (Hno es1). }
  destruct H2 as ([es2 Hd2] & Hf2 & Hk2 & Hx2).
  destruct (Hk2 pdf_dir es1 Hd1) as (es1' & Hd1' & _).
  pose proof (makedirs_cases fs2 (pdf_dir +:+ "/cap2")) as H3.
  destruct (Os.makedirs fs2 (pdf_dir +:+ "/cap2")) as [fs3|] eqn:E3; simpl.
  2:{ destruct H3 as [[data Hd]|(_ & d & b & Hsp & Hno)].
      - split; [|done]. split; [by intros [? ?]|].
        intros H. destruct (H (pdf_dir +:+ "/cap2") data);
          [apply Hlist; tauto | by apply Hf1, Hf2].
      - injection Hsp as <- <-. by destruct (Hno es1'). }
  destruct H3 as ([es3 Hd3] & Hf3 & Hk3 & Hx3).
  destruct (Hk3 pdf_dir es1' Hd1') as (es1'' & Hd1'' & _).
  destruct (Hk3 (pdf_dir +:+ "/cap1") es2 Hd2) as (es2' & Hd2' & _).
  split.
  - split; [|by eexists]. intros _ d data [->|[->| ->]]%Hlist Hd.
    + apply Hf1, Hf2, Hf3 in Hd. congruence.
    + apply Hf1, Hf2, Hf3 in Hd. congruence.
    + apply Hf1, Hf2, Hf3 in Hd. congruence.
  - intros s [= <-]. simpl. split_and!; [done | done | | | | |].
    + intros d [->|[->| ->]]%Hlist; eauto.
    + intros q data. by rewrite Hf3, Hf2, Hf1.
    + intros q Hq. by apply Hx3, Hx2, Hx1.
    + rewrite (makedirs_existing fs3 pdf_dir es1'') by done. simpl.
      rewrite (makedirs_existing fs3 (pdf_dir +:+ "/cap1") es2') by done. simpl.
      by rewrite (makedirs_existing fs3 (pdf_dir +:+ "/cap2") es3).
    + intros pdf_reader colleges_data search_name.
      rewrite search_all_pdfs_rounds.
      destruct (search_round_total pdf_reader colleges_data fs3 search_name
                  (<["cap1" := []]> (<["cap2" := []]> ∅)) "cap1") as [r1 ->].
      { intros data. change (pdf_dir +:+ "/" +:+ "cap1") with (pdf_dir +:+ "/cap1").
        congruence. }
      simpl. apply search_round_total. intros data.
      change (pdf_dir +:+ "/" +:+ "cap2") with (pdf_dir +:+ "/cap2"). congruence.
Qed.

Lemma init_directories_witness :
  ∃ s, Driver.init {| fs := ∅; requests := [] |} = Some s
       ∧ Driver.outside s = Examples.fresh_world
       ∧ Driver.init (Driver.outside s) = Some s.
Proof.
  eexists. split; [reflexivity|]. split; [reflexivity|].
  by apply (init_directories {| fs := ∅; requests := [] |}).
Defined.

End MoreInitClaims.

Section MoreDriver.
Import PyStr.

(** For a search string as [run] passes it on, every entry of a search
    result shows at least one and at most three context lines. *)
Lemma search_all_pdfs_contexts (pdf_reader : string → string + list string)
    (colleges_data : gmap string college) (files : Os.file_system)
    (search_name : string) (results : gmap string (list result_entry)) :
  has_char newline search_name = false →
  all_chars isspace search_name = false →
  Search.search_all_pdfs pdf_reader colleges_data files search_name = Some results →
  ∀ cap_round entries e,
    results !! cap_round = Some entries → e ∈ entries →
    context e ≠ [] ∧ length (context e) ≤ 3.
Proof.
  intros Hnl Hblank Hres cap_round entries e Hk He.
  destruct (search_all_pdfs_lookup _ _ _ _ _ Hres) as [Hrounds Hothers].
  destruct (decide (cap_round ∈ ["cap1"; "cap2"])) as [Hin|Hout];
    [|by rewrite Hothers in Hk].
  rewrite (Hrounds _ Hin) in Hk. injection Hk as <-.
  destruct (Os.listdir files _) as [names|]; [|by apply elem_of_nil in He].
  apply list_elem_of_omap in He as (file & _ & Hf).
  destruct (Search.search_pdf _ _ _ _) as [[] ctx] eqn:Hs; [|done].
  injection Hf as <-. simpl.
  by eapply (search_pdf_found_nonempty pdf_reader files).
Qed.

Lemma search_loop_searches (env : Driver.environment) (s : Driver.searcher)
    (Q : string → Prop) (P : Driver.call → Prop) (n : nat) :
  (∀ line results,
     Q line →
     Driver.searchable (strip line) →
     Search.search_all_pdfs (Driver.pdf_reader env) (Driver.colleges_data s)
       (fs (Driver.outside s)) (strip line) = Some results →
     P (Driver.SearchAll (strip line) results)) →
  ∀ stdin done,
    length stdin ≤ n → Forall Q stdin → Forall P done →
    Forall P (Driver.calls (Driver.search_loop env s stdin done)).
Proof.
  intros HP. induction n as [|n IH]; intros stdin done Hlen HQ Hdone;
    destruct stdin as [|line rest]; simpl in Hlen; try lia; try exact Hdone.
  apply Forall_cons in HQ as [Hline Hrest].
  cbn [Driver.search_loop].
  destruct (is_empty (strip line)) eqn:Hempty; [done|].
  case_bool_decide as Hquit; [done|]. cbn [orb].
  case_bool_decide as Hshort; [apply IH; [lia | done | done]|].
  destruct (Search.search_all_pdfs _ _ _ _) as [results|] eqn:Hres; [|done].
  assert (Hdone' : Forall P (done ++ [Driver.SearchAll (strip line) results])).
  { apply Forall_app. split; [done|]. apply Forall_singleton, HP; [done| |done].
    split_and!; [lia | apply strip_idem | done]. }
  destruct rest as [|answer rest']; [done|].
  apply Forall_cons in Hrest as [_ Hrest'].
  case_bool_decide; [done|]. apply IH; [simpl in Hlen; lia | done | done].
Qed.

(** [run], by the answer to the download prompt. *)
Lemma run_unfold (env : Driver.environment) (s : Driver.searcher)
    (line : string) (rest : list string) :
  let catalog :=
    (Catalog.scrape_college_data (Driver.colleges_data s) (Driver.index_page env)).1 in
  let w1 := {| fs := fs (Driver.outside s);
               requests := index_url :: requests (Driver.outside s) |} in
  let down := Download.download_all_pdfs (Driver.http_get env) (Driver.schedule env)
                catalog w1 in
  Driver.run env s (line :: rest)
  = if bool_decide (lower (strip line) ≠ "n") then
      Driver.search_loop env
        {| Driver.colleges_data := catalog; Driver.outside := down.1 |} rest
        [Driver.DownloadAll down.2]
    else Driver.search_loop env
           {| Driver.colleges_data := catalog; Driver.outside := w1 |} rest [].
Proof.
  unfold Driver.run.
  destruct (Catalog.scrape_college_data _ _) as [data ok]. simpl.
  by destruct (Download.download_all_pdfs _ _ _ _) as [w2 summary].
Qed.

End MoreDriver.

Section MoreDriverClaims.
Import PyStr.

(** X12.  Whatever is typed (lines without newline, as [input] returns
    them), every search [run] performs is for a trimmed name of at least
    three characters other than "quit"; its result is that of
    [search_all_pdfs] on the catalog and files [run] ends with; and every
    entry of the result shows between one and three context lines. *)
Theorem run_searches (env : Driver.environment) (s : Driver.searcher)
    (stdin : list string) :
  (∀ line, line ∈ stdin → has_char newline line = false) →
  let r := Driver.run env s stdin in
  ∀ name results,
    Driver.SearchAll name results ∈ Driver.calls r →
    (3 ≤ String.length name ∧ strip name = name ∧ lower name ≠ "quit")
    ∧ Search.search_all_pdfs (Driver.pdf_reader env)
        (Driver.colleges_data (Driver.final r))
        (fs (Driver.outside (Driver.final r))) name = Some results
    ∧ ∀ cap_round entries e,
        results !! cap_round = Some entries → e ∈ entries →
        context e ≠ [] ∧ length (context e) ≤ 3.
Proof.
  intros Hstdin r name results Hcall.
  set (P := λ (s' : Driver.searcher) (c : Driver.call),
         match c with
         | Driver.DownloadAll _ => True
         | Driver.SearchAll nm res =>
             Driver.searchable nm
             ∧ has_char newline nm = false
             ∧ Search.search_all_pdfs (Driver.pdf_reader env)
                 (Driver.colleges_data s') (fs (Driver.outside s')) nm = Some res
         end).
  assert (Hloop : ∀ s' stdin' done,
            Forall (λ line, has_char newline line = false) stdin' →
            Forall (P s') done →
            Forall (P s') (Driver.calls (Driver.search_loop env s' stdin' done))).
  { intros s' stdin' done HQ Hdone.
    apply (search_loop_searches env s' (λ line, has_char newline line = false)
             (P s') (length stdin')); [|lia|done|done].
    intros line res Hline Hsearchable Hres. simpl. split_and!; [done | | done].
    by apply (has_char_Substring _ _ line); [apply strip_Substring|]. }
  assert (HP : P (Driver.final r) (Driver.SearchAll name results)).
  { apply Forall_forall in Hstdin. unfold r in *.
    destruct stdin as [|line rest].
    { unfold Driver.run in Hcall.
      destruct (Catalog.scrape_college_data _ _) as [data ok]. simpl in Hcall.
      by apply elem_of_nil in Hcall. }
    apply Forall_cons in Hstdin as [_ Hrest].
    rewrite run_unfold in Hcall |- *. cbv zeta in Hcall |- *.
    case_bool_decide.
    - rewrite (proj1 (search_loop_frame env _ (length rest) rest _ (le_n _))).
      eapply Forall_forall; [|exact Hcall].
      apply Hloop; [done|]. by apply Forall_singleton.
    - rewrite (proj1 (search_loop_frame env _ (length rest) rest _ (le_n _))).
      eapply Forall_forall; [|exact Hcall]. by apply Hloop. }
  destruct HP as ((Hlen & Hstrip & Hquit) & Hnl & Hres).
  split_and!; [done..|].
  apply (search_all_pdfs_contexts (Driver.pdf_reader env)
           (Driver.colleges_data (Driver.final r))
           (fs (Driver.outside (Driver.final r))) name results Hnl); [|done].
  rewrite <- is_empty_strip, Hstrip. destruct name; [simpl in Hlen; lia | done].
Qed.

Lemma run_searches_witness :
  let r := Driver.run Examples.test_env Examples.fresh_searcher
             [""; "do"; " Doe "; "n"] in
  (∀ line, line ∈ [""; "do"; " Doe "; "n"] → has_char newline line = false)
  ∧ ∃ results,
      Driver.calls r
      = [Driver.DownloadAll {| Download.successful_downloads := 2;
                               Download.already_exists := 0;
                               Download.failed_downloads := 0 |};
         Driver.SearchAll "Doe" results]
      ∧ Search.search_all_pdfs Examples.plain_reader
          (Driver.colleges_data (Driver.final r))
          (fs (Driver.outside (Driver.final r))) "Doe" = Some results.
Proof.
  intros r.
  assert (Hstdin : ∀ line, line ∈ [""; "do"; " Doe "; "n"] →
                           has_char newline line = false).
  { intros line Hl. apply list_elem_of_In in Hl.
    destruct Hl as [<-|[<-|[<-|[<-|[]]]]]; reflexivity. }
  split; [exact Hstdin|]. eexists. split; [reflexivity|].
  apply (run_searches Examples.test_env Examples.fresh_searcher
           [""; "do"; " Doe "; "n"] Hstdin "Doe").
  right. left.
Defined.

(** X13.  Whatever is typed, [run] ends with the catalog it built at the
    start, keeps every file that existed with its bytes, and sends, after
    the request for the index page, at most one request per scheduled
    download task, each to the URL of such a task. *)
Theorem run_frame (env : Driver.environment) (s : Driver.searcher)
    (stdin : list string) :
  let r := Driver.run env s stdin in
  let catalog :=
    (Catalog.scrape_college_data (Driver.colleges_data s) (Driver.index_page env)).1 in
  let tasks := Driver.schedule env (Download.download_tasks catalog) in
  Driver.colleges_data (Driver.final r) = catalog
  ∧ (∀ q data, fs (Driver.outside s) !! q = Some (Os.File data) →
               fs (Driver.outside (Driver.final r)) !! q = Some (Os.File data))
  ∧ ∃ new,
      requests (Driver.outside (Driver.final r))
      = new ++ index_url :: requests (Driver.outside s)
      ∧ length new ≤ length tasks
      ∧ ∀ url, url ∈ new →
               ∃ task, task ∈ tasks ∧ url = Download.pdf_url task.1 task.2.
Proof.
  intros r catalog tasks.
  set (w1 := {| fs := fs (Driver.outside s);
                requests := index_url :: requests (Driver.outside s) |}).
  assert (Hskip : ∀ r',
            Driver.final r' = {| Driver.colleges_data := catalog; Driver.outside := w1 |} →
            Driver.colleges_data (Driver.final r') = catalog
            ∧ (∀ q data, fs (Driver.outside s) !! q = Some (Os.File data) →
                 fs (Driver.outside (Driver.final r')) !! q = Some (Os.File data))
            ∧ ∃ new,
                requests (Driver.outside (Driver.final r'))
                = new ++ index_url :: requests (Driver.outside s)
                ∧ length new ≤ length tasks
                ∧ ∀ url, url ∈ new →
                         ∃ task, task ∈ tasks ∧ url = Download.pdf_url task.1 task.2).
  { intros r' ->. simpl. split_and!; [done | done |].
    exists []. split_and!; [done | simpl; lia | ].
    intros url Hu. by apply elem_of_nil in Hu. }
  unfold r. destruct stdin as [|line rest].
  { apply Hskip. unfold Driver.run, catalog, w1.
    by destruct (Catalog.scrape_college_data _ _) as [data ok]. }
  rewrite run_unfold. cbv zeta. fold catalog w1.
  case_bool_decide;
    [|apply Hskip, (search_loop_frame env _ (length rest) rest _ (le_n _))].
  rewrite (proj1 (search_loop_frame env _ (length rest) rest _ (le_n _))).
  simpl. unfold Download.download_all_pdfs. fold tasks.
  pose proof (run_tasks_keeps (Driver.http_get env) tasks w1) as [Hkeep _].
  pose proof (run_tasks_requests (Driver.http_get env) tasks w1 Download.no_tallies)
    as (new & Hreq & Hurls & Hcount).
  pose proof (run_tasks_length (Driver.http_get env) tasks w1) as Hlen.
  pose proof (tally_fold_total (Download.run_tasks (Driver.http_get env) w1 tasks).2
                Download.no_tallies) as Htotal.
  destruct (Download.run_tasks (Driver.http_get env) w1 tasks) as [w2 rs].
  simpl in *. split_and!; [done | by apply Hkeep |].
  exists new. split_and!; [done | | done].
  unfold Download.tally_total in Htotal. simpl in Htotal. lia.
Qed.

(** While every search returns, the loop does not end on an [OSError]. *)
Lemma search_loop_status (env : Driver.environment) (s : Driver.searcher) (n : nat) :
  (∀ name, is_Some (Search.search_all_pdfs (Driver.pdf_reader env)
                      (Driver.colleges_data s) (fs (Driver.outside s)) name)) →
  ∀ stdin done,
    length stdin ≤ n →
    Driver.status (Driver.search_loop env s stdin done) ≠ Driver.OSError.
Proof.
  intros Hsearch. induction n as [|n IH]; intros stdin done Hlen;
    destruct stdin as [|line rest]; simpl in Hlen; try lia;
    try (simpl; discriminate).
  cbn [Driver.search_loop].
  destruct (is_empty (strip line) || bool_decide (lower (strip line) = "quit"));
    [done|].
  case_bool_decide; [apply IH; lia|].
  destruct (Hsearch (strip line)) as [results ->].
  destruct rest as [|answer rest']; [done|].
  case_bool_decide; [done|]. apply IH. simpl in Hlen. lia.
Qed.

(** X14.  On a searcher made by [__init__], [run] never ends on the
    [OSError] of a directory listing, whatever the server answers and
    whatever is typed: it returns, or stops because the input has ended. *)
Theorem run_after_init (env : Driver.environment) (w : world) (s : Driver.searcher)
    (stdin : list string) :
  Driver.init w = Some s →
  Driver.status (Driver.run env s stdin) = Driver.Finished
  ∨ Driver.status (Driver.run env s stdin) = Driver.EOFError.
Proof.
  intros Hinit.
  assert (Hdirs : ∀ cap_round,
            cap_round ∈ ["cap1"; "cap2"] →
            ∃ es, fs (Driver.outside s) !! (pdf_dir +:+ "/" +:+ cap_round)
                  = Some (Os.Dir es)).
  { unfold Driver.init in Hinit.
    pose proof (makedirs_cases (fs w) pdf_dir) as H1.
    destruct (Os.makedirs (fs w) pdf_dir) as [fs1|]; [|done]. simpl in Hinit.
    pose proof (makedirs_cases fs1 (pdf_dir +:+ "/cap1")) as H2.
    destruct (Os.makedirs fs1 (pdf_dir +:+ "/cap1")) as [fs2|]; [|done].
    simpl in Hinit.
    pose proof (makedirs_cases fs2 (pdf_dir +:+ "/cap2")) as H3.
    destruct (Os.makedirs fs2 (pdf_dir +:+ "/cap2")) as [fs3|]; [|done].
    injection Hinit as <-. simpl.
    destruct H2 as ([es2 Hd2] & _). destruct H3 as ([es3 Hd3] & _ & Hk3 & _).
    destruct (Hk3 _ _ Hd2) as (es2' & Hd2' & _).
    intros cap_round Hcap. apply list_elem_of_In in Hcap.
    destruct Hcap as [<-|[<-|[]]]; [by exists es2' | by exists es3]. }
  assert (Hsearch : ∀ files catalog,
            (∀ cap_round, cap_round ∈ ["cap1"; "cap2"] →
               ∃ es, files !! (pdf_dir +:+ "/" +:+ cap_round) = Some (Os.Dir es)) →
            ∀ name, is_Some (Search.search_all_pdfs (Driver.pdf_reader env)
                               catalog files name)).
  { intros files catalog Hd name. rewrite search_all_pdfs_rounds.
    destruct (search_round_total (Driver.pdf_reader env) catalog files name
                (<["cap1" := []]> (<["cap2" := []]> ∅)) "cap1") as [r1 ->].
    { intros data. destruct (Hd "cap1") as [es Hes]; [set_solver | congruence]. }
    simpl. apply search_round_total. intros data.
    destruct (Hd "cap2") as [es Hes]; [set_solver | congruence]. }
  assert (Hstatus : Driver.status (Driver.run env s stdin) ≠ Driver.OSError).
  { destruct stdin as [|line rest].
    { unfold Driver.run.
      by destruct (Catalog.scrape_college_data _ _) as [data ok]. }
    rewrite run_unfold. cbv zeta.
    case_bool_decide;
      apply (search_loop_status env _ (length rest)); try lia;
      apply Hsearch; simpl; [|done].
    intros cap_round Hcap. destruct (Hdirs cap_round Hcap) as [es Hes].
    unfold Download.download_all_pdfs.
    pose proof (run_tasks_keeps (Driver.http_get env)
                  (Driver.schedule env
                     (Download.download_tasks
                        (Catalog.scrape_college_data (Driver.colleges_data s)
                           (Driver.index_page env)).1))
                  {| fs := fs (Driver.outside s);
                     requests := index_url :: requests (Driver.outside s) |})
      as [_ Hkeep].
    destruct (Download.run_tasks _ _ _) as [w2 rs]. simpl in *.
    destruct (Hkeep _ _ Hes) as (es' & Hes' & _). by exists es'. }
  destruct (Driver.status (Driver.run env s stdin)); [by left | by right | done].
Qed.

Lemma run_after_init_witness :
  Driver.init {| fs := ∅; requests := [] |} = Some Examples.fresh_searcher
  ∧ Driver.status (Driver.run Examples.test_env Examples.fresh_searcher ["y"; "doe"])
    = Driver.EOFError.
Proof.
  assert (Hinit : Driver.init {| fs := ∅; requests := [] |}
                  = Some Examples.fresh_searcher) by reflexivity.
  split; [exact Hinit|].
  destruct (run_after_init Examples.test_env {| fs := ∅; requests := [] |}
              Examples.fresh_searcher ["y"; "doe"] Hinit) as [H|H]; [|exact H].
  assert (Hst : Driver.status
                  (Driver.run Examples.test_env Examples.fresh_searcher ["y"; "doe"])
                = Driver.EOFError) by reflexivity.
  rewrite Hst in H. discriminate H.
Defined.

End MoreDriverClaims.

